(** * The filter-and-reshape pipeline of the DK housing affordability app

    A shallow embedding of the data-handling parts of [src/app.py]: the
    recency map built at start-up, the sidebar resolvers [filter_metric] and
    [filter_price_type_new], the row filters of the by-municipality pages,
    the pivot and percent change of the historical-changes page, the
    rounding done by each page and the top-N selection of the overview
    pages.

    Conventions of the embedding.
    - A pandas data frame is the list of its rows, in row order.
    - A cell of a numeric column is a value of [float]: the number written
      in the data, as an exact rational (in canonical form, so that equal
      numbers are equal terms), one of the two infinities, or NaN.
    - Arithmetic comes in two forms.  [Float64] is the arithmetic of the
      program: IEEE 754 binary64, every operation rounded.  What is stated
      of a computed value (the percent change, the rounding of a page) is
      stated in it.  [Float] is exact arithmetic with the special
      values of IEEE 754 ([x/0] is an infinity of the sign of [x], [0/0] is
      NaN); it is used for what does not depend on how a result is
      rounded: which cells are NaN, which step raises, how a change of
      zero, an infinity or NaN is classed.
    - pandas sorts with a sort that is not stable.  [Frame.sort_values] is
      one sort among those it may do; what is proved of it holds of every
      one of them, and [SortContract] states what all of them have in
      common.
    - What a Streamlit widget returns is an argument of the function that
      calls the widget. *)

From Stdlib Require Import ZArith QArith Qround Qcanon Lia SpecFloat.
From stdpp Require Import gmap strings list fin_maps sorting numbers.

Local Open Scope Z_scope.

(** ** Cells and rows *)

Inductive float : Type :=
  | Fin (q : Qc)
  | PInf
  | NInf
  | NaN.

(** One row of the panel data set.  [Year], [Municipality] and [PriceType]
    are the three key columns; [cell] reads any other column by its name. *)
Record PanelRow : Type := mkRow {
  Year : Z;
  Municipality : string;
  PriceType : string;
  cell : string → float
}.

Abbreviation DataFrame := (list PanelRow).

(** ** The recency indexer (app.py, lines 45-81) *)

Module Recency.

(** [Series.unique()]: the distinct values in order of first appearance. *)
Definition unique (l : list Z) : list Z := reverse (remove_dups (reverse l)).

(** [np.arange(a, b)] on integers. *)
Definition arange (a b : Z) : list Z := seqZ a (b - a).

(** [list.sort(reverse=True)] on a list of integers. *)
Definition sort_reverse (l : list Z) : list Z := merge_sort Z.ge l.

(** [dict(pairs)]: pairs are stored left to right, a later pair replaces an
    earlier one with the same key. *)
Definition dict (l : list (Z * Z)) : gmap Z Z :=
  foldl (λ m kv, <[kv.1 := kv.2]> m) ∅ l.

(** The list [unique_years] as lines 52-57 build it:
    [sales_data[sales_data["PriceType"] != "Predicted price"]["Year"]
       .unique().astype(int).tolist()]. *)
Definition historical_years (df : DataFrame) : list Z :=
  unique (Year <$> filter (λ r, PriceType r ≠ "Predicted price") df).

(** The same list after [unique_years.sort(reverse=True)] on line 63. *)
Definition unique_years (df : DataFrame) : list Z :=
  sort_reverse (historical_years df).

(** [sales_data[sales_data["PriceType"] == "Predicted price"]["Year"]
       .unique().astype(int).tolist()]. *)
Definition future_years (df : DataFrame) : list Z :=
  unique (Year <$> filter (λ r, PriceType r = "Predicted price") df).

(** [n_years = len(unique_years)] and
    [n_possible_years = np.arange(1, n_years + 1)]. *)
Definition n_years (df : DataFrame) : Z :=
  Z.of_nat (length (historical_years df)).

Definition n_possible_years (df : DataFrame) : list Z :=
  arange 1 (n_years df + 1).

(** [annual_recency = dict(zip(unique_years, n_possible_years))]. *)
Definition annual_recency (df : DataFrame) : gmap Z Z :=
  dict (zip (unique_years df) (n_possible_years df)).

(** [df["Recency"] = df["Year"].map(annual_recency)] followed by
    [.fillna(0)]: the value of the new column on a row of year [y]. *)
Definition Recency (m : gmap Z Z) (y : Z) : Z := default 0 (m !! y).

(** [last_hist_year = unique_years[0]]; the option is the [IndexError] of an
    empty list. *)
Definition last_hist_year (df : DataFrame) : option Z := head (unique_years df).

End Recency.

(** ** Exact arithmetic with the special values of IEEE 754

    An idealisation of float64 that rounds no intermediate result.  It
    agrees with float64 on NaN, on the infinities, on division by zero and
    on [x - x]; on other operands the two can differ in the last digit,
    and [Float64] below is the one to compute a value with. *)

Module Float.

Definition is_inf (x : float) : bool :=
  match x with PInf | NInf => true | _ => false end.

Definition neg (x : float) : float :=
  match x with
  | Fin q => Fin (- q)%Qc
  | PInf => NInf
  | NInf => PInf
  | NaN => NaN
  end.

(** The infinity of the sign of [q]; zero has the sign plus. *)
Definition inf_of_sign (q : Qc) : float :=
  if decide (q < 0)%Qc then NInf else PInf.

(** [x - y]. *)
Definition sub (x y : float) : float :=
  match x, y with
  | NaN, _ | _, NaN => NaN
  | Fin a, Fin b => Fin (a - b)%Qc
  | Fin _, PInf => NInf
  | Fin _, NInf => PInf
  | PInf, PInf => NaN
  | PInf, _ => PInf
  | NInf, NInf => NaN
  | NInf, _ => NInf
  end.

(** [x * y]. *)
Definition mul (x y : float) : float :=
  match x, y with
  | NaN, _ | _, NaN => NaN
  | Fin a, Fin b => Fin (a * b)%Qc
  | Fin a, PInf | PInf, Fin a =>
      if decide (a = 0)%Qc then NaN else inf_of_sign a
  | Fin a, NInf | NInf, Fin a =>
      if decide (a = 0)%Qc then NaN else neg (inf_of_sign a)
  | PInf, PInf | NInf, NInf => PInf
  | PInf, NInf | NInf, PInf => NInf
  end.

(** [x / y]; a finite [x] over zero is an infinity, zero over zero is NaN,
    and nothing raises. *)
Definition div (x y : float) : float :=
  match x, y with
  | NaN, _ | _, NaN => NaN
  | Fin a, Fin b =>
      if decide (b = 0)%Qc
      then (if decide (a = 0)%Qc then NaN else inf_of_sign a)
      else Fin (a / b)%Qc
  | Fin _, (PInf | NInf) => Fin 0%Qc
  | (PInf | NInf), (PInf | NInf) => NaN
  | PInf, Fin b => inf_of_sign b
  | NInf, Fin b => neg (inf_of_sign b)
  end.

Definition half : Qc := (Qc_of_Z 1 / Qc_of_Z 2)%Qc.

(** [rint]: the nearest integer, a tie going to the even one. *)
Definition rint (q : Qc) : Z :=
  let f := Qfloor q in
  let r := (q - Qc_of_Z f)%Qc in
  if decide (r < half)%Qc then f
  else if decide (half < r)%Qc then f + 1
  else if Z.even f then f else f + 1.

Definition pow10 (decimals : nat) : Qc := Qc_of_Z (10 ^ Z.of_nat decimals).

(** Rounding to [decimals] decimals in exact arithmetic: scale, round to
    the nearest integer, scale back.  Like [np.round] it leaves NaN and the
    infinities as they are and gives a number for a number. *)
Definition round (x : float) (decimals : nat) : float :=
  match x with
  | Fin q => Fin (Qc_of_Z (rint (q * pow10 decimals)) / pow10 decimals)%Qc
  | _ => x
  end.

(** The order numpy sorts non-NaN keys by. *)
Definition le (x y : float) : Prop :=
  match x, y with
  | NInf, _ => True
  | _, PInf => True
  | Fin a, Fin b => (a ≤ b)%Qc
  | _, _ => False
  end.

#[global] Instance le_dec : RelDecision le.
Proof. intros [a| | |] [b| | |]; simpl; apply _. Defined.

#[global] Instance float_eq_dec : EqDecision float.
Proof. solve_decision. Defined.

End Float.

(** ** Errors *)

(** The outcome of a Python call is a value or an exception.  The first
    four exceptions are the ones the modelled statements can raise.  The
    other two are the errors the specification names; no statement of
    app.py raises them. *)
Inductive exn : Type :=
  | ValueError
  | KeyError
  | UnboundLocalError
  | IntCastingNaNError
  | InvalidSelection
  | InvalidRange.

Inductive result (A : Type) : Type :=
  | Ok (a : A)
  | Raise (e : exn).

Arguments Ok {A} a.
Arguments Raise {A} e.

#[global] Instance exn_eq_dec : EqDecision exn.
Proof. solve_decision. Defined.

#[global] Instance result_eq_dec {A : Type} `{EqDecision A} :
  EqDecision (result A).
Proof. solve_decision. Defined.

#[global] Instance result_bind : MBind result :=
  λ A B f x, match x with Ok a => f a | Raise e => Raise e end.

#[global] Instance result_ret : MRet result := λ A a, Ok a.

(** ** The sidebar resolvers (app.py, lines 83-88, 159-172 and 264-276) *)

Module Sidebar.

Definition price_type_combinations : list string :=
  [ "Historical data incl. estimates";
    "Historical data excl. estimates";
    "Historical data and predictions" ].

(** [filter_metric]: [selected_metric] is what the select box returned;
    [None] is Python's [None].  Every branch reaches the [return]. *)
Definition filter_metric (selected_metric : string) : result (option string) :=
  if decide (selected_metric = "Actual price") then Ok (Some "AvgSalesPrice")
  else if decide (selected_metric = "Price index")
    then Ok (Some "AvgSalesPriceIdx")
  else if decide (selected_metric = "Buyable m² with annual income")
    then Ok (Some "M2AffordedTotal")
  else if decide (selected_metric = "Years of income to buy 50 m²")
    then Ok (Some "YearsoBuy50M2Total")
  else Ok None.

(** [filter_price_type_new]: [selected_combination] is what the select box
    returned.  [possible_entries.index(default_val)] raises [ValueError]
    when the default is not an entry; the [if]/[elif] chain has no [else],
    so on any other selection [allowed_types] is unbound at the [return]. *)
Definition filter_price_type_new (possible_entries : list string)
    (default_val : string) (selected_combination : string)
    : result (list string) :=
  if decide (default_val ∈ possible_entries) then
    if decide (selected_combination = "Historical data incl. estimates")
      then Ok ["Actual price"; "Estimated price"]
    else if decide (selected_combination = "Historical data excl. estimates")
      then Ok ["Actual price"]
    else if decide (selected_combination = "Historical data and predictions")
      then Ok ["Actual price"; "Estimated price"; "Predicted price"]
    else Raise UnboundLocalError
  else Raise ValueError.

(** The three-member taxonomy of the [PriceType] column and the label each
    member carries in the data. *)
Inductive price_type : Type := Actual | Estimated | Predicted.

Definition label (t : price_type) : string :=
  match t with
  | Actual => "Actual price"
  | Estimated => "Estimated price"
  | Predicted => "Predicted price"
  end.

Definition taxonomy : list string := label <$> [Actual; Estimated; Predicted].

(** The labels the metric select boxes offer. *)
Definition known_metrics : list string :=
  [ "Actual price"; "Price index"; "Buyable m² with annual income";
    "Years of income to buy 50 m²" ].

End Sidebar.

(** ** Frames: selections, columns, sorting *)

Module Frame.

(** [df[col] = f(df[col])]: the column [col] rewritten cell by cell. *)
Definition map_column (col : string) (f : float → float) (df : DataFrame)
    : DataFrame :=
  (λ r, mkRow (Year r) (Municipality r) (PriceType r)
          (λ c, if decide (c = col) then f (cell r c) else cell r c)) <$> df.

(** [np.round(df[col], decimals)] stored back into the column. *)
Definition round_column (col : string) (decimals : nat) (df : DataFrame)
    : DataFrame :=
  map_column col (λ x, Float.round x decimals) df.

(** An insertion sort by a float key: an element is put in front of the
    first element whose key is not smaller. *)
Fixpoint insert (key : PanelRow → float) (x : PanelRow) (l : DataFrame)
    : DataFrame :=
  match l with
  | [] => [x]
  | y :: l' =>
      if decide (Float.le (key x) (key y)) then x :: y :: l'
      else y :: insert key x l'
  end.

Definition insertion_sort (key : PanelRow → float) (l : DataFrame) : DataFrame :=
  foldr (insert key) [] l.

(** [df.sort_values(col, ascending=...)] as pandas' [nargsort] does it: the
    rows with a NaN key go last in row order; the others are sorted by key,
    and for a descending sort they are reversed before and after an
    ascending sort.  The sort pandas calls is not stable, so the order it
    gives to rows with equal keys is not known; [insertion_sort] stands for
    it, and only what every sort shares is proved of [sort_values]: its
    rows, its length, and the order of the keys. *)
Definition sort_values (col : string) (ascending : bool) (df : DataFrame)
    : DataFrame :=
  let key := (λ r, cell r col) in
  let nans := filter (λ r, key r = NaN) df in
  let non_nans := filter (λ r, key r ≠ NaN) df in
  (if ascending then insertion_sort key non_nans
   else reverse (insertion_sort key (reverse non_nans))) ++ nans.

End Frame.

(** ** The view filter of the by-municipality pages
       (app.py, lines 427-434, 546-553) *)

Module View.

(** [df[df["Recency"] <= n_years]], the column [Recency] being the one
    computed at start-up from the map [m]. *)
Definition recency_filter (m : gmap Z Z) (n_years : Z) (df : DataFrame)
    : DataFrame :=
  filter (λ r, Recency.Recency m (Year r) ≤ n_years) df.

(** The three selections of [page_avg_by_mncp] in the order of the code. *)
Definition data_to_display (m : gmap Z Z) (df : DataFrame) (n_years : Z)
    (selected_locations price_types : list string) : DataFrame :=
  filter (λ r, PriceType r ∈ price_types)
    (filter (λ r, Municipality r ∈ selected_locations)
       (recency_filter m n_years df)).

End View.

(** ** The rounding rule of the specification, and which cell of the
       historical-changes table raises *)

Module Rounding.

(** [.astype(int)] on a cell: NaN and the infinities cannot be cast; a
    number is cut towards zero (in exact arithmetic, see
    [Float64.astype_int] for the int64 it becomes). *)
Definition astype_int (x : float) : result float :=
  match x with
  | Fin q => Ok (Fin (Qc_of_Z (Z.quot (Qnum q) (Z.pos (Qden q)))))
  | _ => Raise IntCastingNaNError
  end.

(** The rule of the specification: no decimals for the absolute price
    metric, two for the index and the ratio metrics. *)
Definition spec_decimals (metric : string) : nat :=
  if decide (metric = "AvgSalesPrice") then 0%nat else 2%nat.

(** [page_hist_changes], lines 914-920, in exact arithmetic: the two year
    columns of the pivoted table hold the chosen metric. *)
Definition page_hist_changes (metric_for_use : string) (x : float)
    : result float :=
  if decide (metric_for_use = "AvgSalesPrice")
  then astype_int (Float.round x 0)
  else Ok (Float.round x 1).

End Rounding.

(** ** The pivot and the percent change of [page_hist_changes]
       (app.py, lines 893-912) *)

Module HistChanges.

(** A frame pivoted by year: the year columns, the municipalities of the
    index, and the cells that hold a value; any other cell is NaN. *)
Record Pivoted : Type := mkPivoted {
  columns : list Z;
  index : list string;
  values : gmap (string * Z) float
}.

Definition key (r : PanelRow) : string * Z := (Municipality r, Year r).

(** [df.pivot(index="Municipality", columns="Year", values=col)]: index and
    columns are the distinct values in increasing order; two rows with the
    same municipality and year make pandas raise [ValueError]. *)
Definition pivot (df : DataFrame) (col : string) : result Pivoted :=
  if decide (NoDup (key <$> df)) then
    Ok {| columns := merge_sort Z.le (remove_dups (Year <$> df));
          index := merge_sort String.le (remove_dups (Municipality <$> df));
          values := list_to_map ((λ r, (key r, cell r col)) <$> df) |}
  else Raise ValueError.

(** The cell of municipality [m] in the year column [y]. *)
Definition at_ (p : Pivoted) (m : string) (y : Z) : float :=
  default NaN (values p !! (m, y)).

(** [frame[y]] raises [KeyError] when the frame has no column [y]. *)
Definition has_column (p : Pivoted) (y : Z) : result unit :=
  if decide (y ∈ columns p) then Ok () else Raise KeyError.

(** [np.round(100 * ((ref - base) / base), 1)] on one row, in exact
    arithmetic; [HistChanges64.pct_change] is the float64 computation. *)
Definition pct_change (base ref : float) : float :=
  Float.round
    (Float.mul (Fin (Qc_of_Z 100)) (Float.div (Float.sub ref base) base)) 1.

(** One row of the frame after the column [% change] is added. *)
Record ChangeRow : Type := mkChangeRow {
  c_municipality : string;
  c_base : float;
  c_ref : float;
  c_change : float
}.

Record ChangeTable : Type := mkChangeTable {
  t_years : list Z;
  t_rows : list ChangeRow
}.

(** Lines 893-912.  The rows are also sorted before the pivot (line 900);
    [pivot] orders index and columns itself, so that sort has no effect on
    the frame and is left out. *)
Definition pivot_and_change (df : DataFrame) (price_types : list string)
    (base_year ref_year : Z) (metric_for_use : string) : result ChangeTable :=
  let relevant_years := [base_year; ref_year] in
  let data_to_display := filter (λ r, Year r ∈ relevant_years) df in
  let data_to_display := filter (λ r, PriceType r ∈ price_types) data_to_display in
  p ← pivot data_to_display metric_for_use;
  _ ← has_column p ref_year;
  _ ← has_column p base_year;
  Ok {| t_years := columns p;
        t_rows := (λ m, mkChangeRow m (at_ p m base_year) (at_ p m ref_year)
                          (pct_change (at_ p m base_year) (at_ p m ref_year)))
                  <$> index p |}.

(** The index of the table. *)
Definition municipalities (t : ChangeTable) : list string :=
  c_municipality <$> t_rows t.

(** The rows that reach the pivot. *)
Definition selected (df : DataFrame) (price_types : list string)
    (base_year ref_year : Z) : DataFrame :=
  filter (λ r, PriceType r ∈ price_types)
    (filter (λ r, Year r ∈ [base_year; ref_year]) df).

End HistChanges.

(** ** The pricing overview page (app.py, lines 1053-1070, 1104-1115) *)

Module Overview.

(** Lines 1053-1062: the price-type selection and the rounding of the chosen
    metric. *)
Definition data_to_display (df : DataFrame) (price_types : list string)
    (metric_for_use : string) : DataFrame :=
  let d := filter (λ r, PriceType r ∈ price_types) df in
  if decide (metric_for_use = "AvgSalesPrice")
  then Frame.round_column metric_for_use 0 d
  else Frame.round_column metric_for_use 2 d.

(** A Python value of the two kinds compared on line 1066, and [==] on
    them: a string never equals an integer. *)
Inductive pyval : Type :=
  | PyStr (s : string)
  | PyInt (z : Z).

Definition py_eq (a b : pyval) : bool :=
  match a, b with
  | PyStr s, PyStr t => bool_decide (s = t)
  | PyInt x, PyInt y => bool_decide (x = y)
  | _, _ => false
  end.

(** Lines 1064-1070: the frame prepared for the geo plot. *)
Definition data_selected_year (data_to_display : DataFrame) (year_to_show : Z)
    : DataFrame :=
  filter (λ r, Municipality r ≠ "National average")
    (filter (λ r, py_eq (PyStr (PriceType r)) (PyInt year_to_show) = true)
       data_to_display).

(** Lines 1107-1111: the pool that is ranked. *)
Definition pool (data_to_display : DataFrame) (year_to_show : Z) : DataFrame :=
  filter (λ r, Municipality r ≠ "National average")
    (filter (λ r, Year r = year_to_show) data_to_display).

(** Lines 1112-1115: the [n_mncp_to_show] most expensive municipalities, in
    the order given to the bar chart. *)
Definition most_expensive (data_to_display : DataFrame) (year_to_show : Z)
    (n_mncp_to_show : nat) (metric_for_use : string) : DataFrame :=
  let data_for_plot := pool data_to_display year_to_show in
  let data_for_plot := Frame.sort_values "AvgSalesPrice" false data_for_plot in
  let data_for_plot := take n_mncp_to_show data_for_plot in
  Frame.sort_values metric_for_use true data_for_plot.

End Overview.

(** ** Sample frames *)

Module Sample.

(** A row whose every metric column holds [v]. *)
Definition row (y : Z) (m pt : string) (v : Z) : PanelRow :=
  mkRow y m pt (λ _, Fin (Qc_of_Z v)).

(** Ten historical years and two predicted ones for one municipality;
    2012 is an estimate. *)
Definition ten_years : DataFrame :=
  [ row 2010 "Odense" "Actual price" 10; row 2011 "Odense" "Actual price" 11;
    row 2012 "Odense" "Estimated price" 12; row 2013 "Odense" "Actual price" 13;
    row 2014 "Odense" "Actual price" 14; row 2015 "Odense" "Actual price" 15;
    row 2016 "Odense" "Actual price" 16; row 2017 "Odense" "Actual price" 17;
    row 2018 "Odense" "Actual price" 18; row 2019 "Odense" "Actual price" 19;
    row 2020 "Odense" "Predicted price" 20; row 2021 "Odense" "Predicted price" 21 ].

(** Three municipalities in two years: Odense has no row for 2020 and the
    2000 value of Skagen is zero. *)
Definition two_years : DataFrame :=
  [ row 2000 "Aarhus" "Actual price" 100; row 2020 "Aarhus" "Actual price" 150;
    row 2000 "Odense" "Actual price" 200;
    row 2000 "Skagen" "Estimated price" 0; row 2020 "Skagen" "Actual price" 80 ].

Definition incl_estimates : list string := ["Actual price"; "Estimated price"].

(** Two municipalities in two years; the price of Ribe goes from 80 to
    103. *)
Definition ribe_80_103 : DataFrame :=
  [ row 2000 "Aarhus" "Actual price" 100; row 2020 "Aarhus" "Actual price" 150;
    row 2000 "Ribe" "Actual price" 80; row 2020 "Ribe" "Actual price" 103 ].

(** The national average and eleven municipalities in 2020; Vejle and
    Aarhus have the same price. *)
Definition overview : DataFrame :=
  [ row 2020 "National average" "Actual price" 11;
    row 2020 "Vejle" "Actual price" 10; row 2020 "Aarhus" "Actual price" 10;
    row 2020 "Odense" "Actual price" 12; row 2020 "Ribe" "Actual price" 9;
    row 2020 "Skagen" "Actual price" 14; row 2020 "Herning" "Actual price" 8;
    row 2020 "Kolding" "Actual price" 7; row 2020 "Viborg" "Actual price" 6;
    row 2020 "Esbjerg" "Actual price" 5; row 2020 "Randers" "Actual price" 4;
    row 2020 "Horsens" "Actual price" 3 ].

End Sample.

(** ** Python and numpy helpers used by the widgets *)

Module Python.

(** [l.index(x)]: the position of the first occurrence of [x]; [ValueError]
    when there is none. *)
Fixpoint index (x : Z) (l : list Z) : result nat :=
  match l with
  | [] => Raise ValueError
  | y :: l' =>
      if decide (y = x) then Ok 0%nat
      else match index x l' with
           | Ok i => Ok (S i)
           | Raise e => Raise e
           end
  end.

(** [np.max(l)] and [np.min(l)] on a list of integers; [ValueError] on an
    empty list. *)
Definition np_max (l : list Z) : result Z :=
  match l with
  | [] => Raise ValueError
  | x :: l' => Ok (foldl Z.max x l')
  end.

Definition np_min (l : list Z) : result Z :=
  match l with
  | [] => Raise ValueError
  | x :: l' => Ok (foldl Z.min x l')
  end.

(** [l.sort()] on a list of integers. *)
Definition sort (l : list Z) : list Z := merge_sort Z.le l.

End Python.

(** ** The rest of the start-up code and the sidebar widgets
       (app.py, lines 45-48 and 183-251) *)

Module Widgets.

(** Lines 45-48: [Series.max()] of the years of the rows that are not
    predictions; [None] is the NaN pandas gives for an empty series. *)
Definition last_historical_year (df : DataFrame) : option Z :=
  match Year <$> filter (λ r, PriceType r ≠ "Predicted price") df with
  | [] => None
  | y :: ys => Some (foldl Z.max y ys)
  end.

(** [filter_by_year], lines 184-190: the value the slider starts at,
    [np.max(list(list_of_years.values()))]. *)
Definition filter_by_year_default (list_of_years : gmap Z Z) : result Z :=
  Python.np_max (snd <$> map_to_list list_of_years).

(** Lines 195-196 and 206-207: [all_years = hist_years + future_years]
    followed by [all_years.sort()]. *)
Definition all_years (hist_years future_years : list Z) : list Z :=
  Python.sort (hist_years ++ future_years).

(** [filter_by_year_base], line 200: the position the select box starts
    at, [all_years.index(np.min(hist_years))]. *)
Definition filter_by_year_base_index (hist_years future_years : list Z)
    : result nat :=
  y ← Python.np_min hist_years;
  Python.index y (all_years hist_years future_years).

(** [filter_by_year_ref], line 211:
    [all_years.index(np.max(hist_years))]. *)
Definition filter_by_year_ref_index (hist_years future_years : list Z)
    : result nat :=
  y ← Python.np_max hist_years;
  Python.index y (all_years hist_years future_years).

(** Lines 871-876 of [page_hist_changes]: the future years are offered
    only when the predictions are among the price types. *)
Definition offered_future_years (price_types : list string)
    (future_years : list Z) : list Z :=
  if decide ("Predicted price" ∈ price_types) then future_years else [].

(** [filter_by_n_mncp], lines 217-224: the numbers offered,
    [np.arange(1, len(list_of_municipalities) + 1).tolist()], and the
    position the select box starts at,
    [possible_numbers.index(default_number)]. *)
Definition possible_numbers (list_of_municipalities : list string) : list Z :=
  Recency.arange 1 (Z.of_nat (length list_of_municipalities) + 1).

Definition filter_by_n_mncp_index (list_of_municipalities : list string)
    (default_number : Z) : result nat :=
  Python.index default_number (possible_numbers list_of_municipalities).

(** Lines 1035-1039: the years that have a national disposable income,
    latest first. *)
Definition possible_years (df : DataFrame) : list Z :=
  Recency.sort_reverse
    (Recency.unique
       (Year <$> filter (λ r, cell r "NationalDisposableTotalAvg" ≠ NaN) df)).

(** [filter_by_specific_year], lines 229-233: the position the select box
    starts at, [possible_years.index(last_historical_year)].  A NaN is found
    in no list of years. *)
Definition filter_by_specific_year_index (possible_years : list Z)
    (last_historical_year : option Z) : result nat :=
  match last_historical_year with
  | Some y => Python.index y possible_years
  | None => Raise ValueError
  end.

End Widgets.

(** ** The rest of [page_hist_changes] (app.py, lines 914-959) *)

Module HistPage.

(** Lines 914-920: [for col in [base_year, ref_year]] the year column is
    rounded in place.  A row reads the column [col] through [c_base] when
    [col] is the base year and through [c_ref] when it is the reference
    year, through both when the two years are the same. *)
Definition round_row (metric_for_use : string) (base_year ref_year : Z)
    (col : Z) (c : HistChanges.ChangeRow) : result HistChanges.ChangeRow :=
  b ← (if decide (col = base_year)
       then Rounding.page_hist_changes metric_for_use (HistChanges.c_base c)
       else Ok (HistChanges.c_base c));
  r ← (if decide (col = ref_year)
       then Rounding.page_hist_changes metric_for_use (HistChanges.c_ref c)
       else Ok (HistChanges.c_ref c));
  Ok (HistChanges.mkChangeRow (HistChanges.c_municipality c) b r
        (HistChanges.c_change c)).

Definition round_year_column (metric_for_use : string) (base_year ref_year : Z)
    (col : Z) (rows : list HistChanges.ChangeRow)
    : result (list HistChanges.ChangeRow) :=
  mapM (round_row metric_for_use base_year ref_year col) rows.

Definition round_for_display (metric_for_use : string) (base_year ref_year : Z)
    (t : HistChanges.ChangeTable) : result HistChanges.ChangeTable :=
  rows ← round_year_column metric_for_use base_year ref_year base_year
            (HistChanges.t_rows t);
  rows ← round_year_column metric_for_use base_year ref_year ref_year rows;
  Ok (HistChanges.mkChangeTable (HistChanges.t_years t) rows).

(** Lines 860-865: the combinations the page offers. *)
Definition local_price_combinations : list string :=
  [ "Historical data incl. estimates"; "Historical data and predictions" ].

(** Lines 868-876: the years the two select boxes offer, for the price
    types the combination stands for. *)
Definition offered_years (df : DataFrame) (price_types : list string)
    : list Z :=
  Widgets.all_years (Recency.unique_years df)
    (Widgets.offered_future_years price_types (Recency.future_years df)).

(** A cell that holds a number. *)
Definition finite (x : float) : Prop := ∃ q, x = Fin q.

(** Lines 922-934. *)
Definition txt_for_title (metric_for_use : option string) : string :=
  if decide (metric_for_use = Some "AvgSalesPrice") then "actual price"
  else if decide (metric_for_use = Some "M2AffordedTotal")
    then "buyable m² with annual income"
  else if decide (metric_for_use = Some "YearsoBuy50M2Total")
    then "years of income to buy 50 m²"
  else "invalid selection".

(** The comparisons of a float with zero; each is false on NaN. *)
Definition lt_zero (x : float) : bool :=
  match x with
  | Fin q => bool_decide (q < 0)%Qc
  | NInf => true
  | _ => false
  end.

Definition eq_zero (x : float) : bool :=
  match x with
  | Fin q => bool_decide (q = 0)%Qc
  | _ => false
  end.

Definition gt_zero (x : float) : bool :=
  match x with
  | Fin q => bool_decide (0 < q)%Qc
  | PInf => true
  | _ => false
  end.

(** Lines 938-950: [np.select(conditions, values, default="Unknown
    change")] on one row; the first condition that holds decides. *)
Definition change_type (txt_for_title : string) (pct_change : float) : string :=
  if lt_zero pct_change then "Decrease in " +:+ txt_for_title
  else if eq_zero pct_change then "No change in " +:+ txt_for_title
  else if gt_zero pct_change then "Increase in " +:+ txt_for_title
  else "Unknown change".

(** [df.drop_duplicates(col)]: of the rows with one value in the column,
    the first stays. *)
Fixpoint drop_duplicates_from {A : Type} (key : A → string)
    (seen : list string) (l : list A) : list A :=
  match l with
  | [] => []
  | x :: l' =>
      if decide (key x ∈ seen) then drop_duplicates_from key seen l'
      else x :: drop_duplicates_from key (key x :: seen) l'
  end.

Definition drop_duplicates {A : Type} (key : A → string) (l : list A)
    : list A :=
  drop_duplicates_from key [] l.

(** Lines 937-953: municipality and change type of every row but the
    national average. *)
Definition typed_rows (txt_for_title : string) (t : HistChanges.ChangeTable)
    : list (string * string) :=
  filter (λ p, p.1 ≠ "National average")
    ((λ c, (HistChanges.c_municipality c,
            change_type txt_for_title (HistChanges.c_change c)))
       <$> HistChanges.t_rows t).

(** Lines 954-959: the number of distinct municipalities of each change
    type ([groupby("Change type")["Municipality"].transform("nunique")]),
    and one row per change type.  A row of the result is a change type and
    its number of municipalities. *)
Definition data_for_chart (txt_for_title : string)
    (t : HistChanges.ChangeTable) : list (string * nat) :=
  let typed := typed_rows txt_for_title t in
  let counted :=
    (λ p, (p.2, length (remove_dups
                          (fst <$> filter (λ q, q.2 = p.2) typed))))
    <$> typed in
  drop_duplicates fst counted.

End HistPage.

(** ** The rankings of the overview pages
       (app.py, lines 1104-1255 and 1288-1440) *)

Module Ranking.

(** The five statements every ranking block repeats: the rows of the year
    shown without the national average, sorted on [rank_col], cut to the
    first [n_mncp_to_show], and sorted on [chart_col] for the bar chart. *)
Definition top_n (rank_col : string) (rank_ascending : bool)
    (chart_col : string) (chart_ascending : bool)
    (data_to_display : DataFrame) (year_to_show : Z) (n_mncp_to_show : nat)
    : DataFrame :=
  let data_for_plot := Overview.pool data_to_display year_to_show in
  let data_for_plot := Frame.sort_values rank_col rank_ascending data_for_plot in
  let data_for_plot := take n_mncp_to_show data_for_plot in
  Frame.sort_values chart_col chart_ascending data_for_plot.

(** Lines 1149-1156. *)
Definition cheapest (data_to_display : DataFrame) (year_to_show : Z)
    (n_mncp_to_show : nat) (metric_for_use : string) : DataFrame :=
  top_n "AvgSalesPrice" true metric_for_use false
    data_to_display year_to_show n_mncp_to_show.

(** Lines 1187-1194 and 1224-1231. *)
Definition highest_price_change (data_to_display : DataFrame)
    (year_to_show : Z) (n_mncp_to_show : nat) : DataFrame :=
  top_n "AvgSalesPriceChange" false "AvgSalesPriceChange" true
    data_to_display year_to_show n_mncp_to_show.

Definition lowest_price_change (data_to_display : DataFrame)
    (year_to_show : Z) (n_mncp_to_show : nat) : DataFrame :=
  top_n "AvgSalesPriceChange" true "AvgSalesPriceChange" false
    data_to_display year_to_show n_mncp_to_show.

(** Lines 1292-1299 and 1330-1337 of [page_annual_afford_overview]. *)
Definition most_affordable (data_to_display : DataFrame)
    (year_to_show : Z) (n_mncp_to_show : nat) : DataFrame :=
  top_n "M2AffordedTotal" false "M2AffordedTotal" true
    data_to_display year_to_show n_mncp_to_show.

Definition least_affordable (data_to_display : DataFrame)
    (year_to_show : Z) (n_mncp_to_show : nat) : DataFrame :=
  top_n "M2AffordedTotal" true "M2AffordedTotal" false
    data_to_display year_to_show n_mncp_to_show.

(** Lines 1368-1375 and 1416-1423. *)
Definition best_affordability_change (data_to_display : DataFrame)
    (year_to_show : Z) (n_mncp_to_show : nat) : DataFrame :=
  top_n "AvgM2AffordedTotalChange" false "AvgM2AffordedTotalChange" true
    data_to_display year_to_show n_mncp_to_show.

Definition worst_affordability_change (data_to_display : DataFrame)
    (year_to_show : Z) (n_mncp_to_show : nat) : DataFrame :=
  top_n "AvgM2AffordedTotalChange" true "AvgM2AffordedTotalChange" false
    data_to_display year_to_show n_mncp_to_show.

(** Lines 1282-1286: the frame the affordability overview ranks. *)
Definition afford_data_to_display (df : DataFrame) (price_types : list string)
    : DataFrame :=
  Frame.round_column "M2AffordedTotal" 0
    (filter (λ r, PriceType r ∈ price_types) df).

(** The order of two rows by their keys. *)
Definition by_key (key : PanelRow → float) (r1 r2 : PanelRow) : Prop :=
  Float.le (key r1) (key r2).

(** The order of the keys of a sorted column: increasing or decreasing. *)
Definition in_order (ascending : bool) (x y : float) : Prop :=
  if ascending then Float.le x y else Float.le y x.

End Ranking.

(** ** The line chart of [page_avg_by_mncp] (app.py, lines 436-464) *)

Module PricePage.

(** An insertion sort by year. *)
Fixpoint insert_year (x : PanelRow) (l : DataFrame) : DataFrame :=
  match l with
  | [] => [x]
  | y :: l' =>
      if decide (Year x ≤ Year y) then x :: y :: l'
      else y :: insert_year x l'
  end.

(** [df.sort_values("Year", ascending=False)]: the frame is reversed before
    and after an ascending sort, as for [Frame.sort_values]; a year is
    never NaN.  As there, the order of the rows of one year is the one of
    the sort that stands for pandas' and is not stated of the program. *)
Definition sort_year_descending (df : DataFrame) : DataFrame :=
  reverse (foldr insert_year [] (reverse df)).

(** [Series.unique()] on a column of strings. *)
Definition unique (l : list string) : list string :=
  reverse (remove_dups (reverse l)).

(** Lines 436-445 and 455-456: the municipalities of the sorted view; the
    projection and the rounding in between leave the column as it is. *)
Definition unique_mncp (data_to_display : DataFrame) : list string :=
  unique (Municipality <$> sort_year_descending data_to_display).

(** Lines 447-453. *)
Definition metric_for_use_txt (metric_for_use : string) : string :=
  if decide (metric_for_use = "AvgSalesPrice") then "Average price per m²"
  else "Average price per m² (indexed)".

(** Lines 458-464: the chart title; [None] is the [IndexError] of
    [unique_mncp[0]] on an empty array. *)
Definition chart_title (metric_for_use : string) (data_to_display : DataFrame)
    : option string :=
  let unique_mncp := unique_mncp data_to_display in
  if decide (1 < length unique_mncp)%nat
  then Some (metric_for_use_txt metric_for_use +:+ " by municipality and year")
  else m ← head unique_mncp;
       Some (metric_for_use_txt metric_for_use +:+ " in " +:+ m +:+ " over time").

(** [filter_by_location], lines 244-251: an empty selection is replaced by
    the national average. *)
Definition filter_by_location (selected_entries : list string) : list string :=
  if decide (selected_entries = []) then ["National average"]
  else selected_entries.

End PricePage.

(** ** binary64 arithmetic

    The arithmetic of the program itself: IEEE 754 binary64 with rounding
    to nearest, ties to even.  The operations are the ones of Rocq's
    specification of binary floating point, at precision 53 and exponent
    bound 1024. *)

Module Float64.

Definition prec : Z := 53.
Definition emax : Z := 1024.

#[global] Instance spec_float_eq_dec : EqDecision spec_float.
Proof. solve_decision. Defined.

(** [x - y], [x * y] and [x / y] on float64. *)
Definition sub : spec_float → spec_float → spec_float := SFsub prec emax.
Definition mul : spec_float → spec_float → spec_float := SFmul prec emax.
Definition div : spec_float → spec_float → spec_float := SFdiv prec emax.

(** The float64 nearest to an integer: what numpy makes of a Python [int]
    operand such as the [100] of line 912. *)
Definition of_Z (z : Z) : spec_float := binary_normalize prec emax z 0 false.

(** The float64 nearest to a rational: the quotient is carried to 64 bits
    and more, with one more bit that tells whether anything is left, and
    then rounded once. *)
Definition of_Qc (q : Qc) : spec_float :=
  let n := Qnum q in
  let d := Z.pos (Qden q) in
  let k := Z.max 0 (Z.log2 d - Z.log2 (Z.abs n) + 64) in
  let N := Z.abs n * 2 ^ k in
  let m := 2 * (N / d) + (if decide (N mod d = 0) then 0 else 1) in
  binary_normalize prec emax (if decide (n < 0) then - m else m) (- k - 1) false.

(** The float64 that the decimal literal [n / 10 ^ digits] denotes. *)
Definition of_decimal (n : Z) (digits : nat) : spec_float :=
  of_Qc (Q2Qc (n # Z.to_pos (10 ^ Z.of_nat digits))).

(** The float64 a cell of the data holds: the one nearest to the number
    written in the data. *)
Definition of_cell (x : float) : spec_float :=
  match x with
  | Fin q => of_Qc q
  | PInf => S754_infinity false
  | NInf => S754_infinity true
  | NaN => S754_nan
  end.

(** [np.rint]: the nearest integer, a tie going to the even one; the sign
    is kept, also on zero.  A float64 whose exponent is not negative is an
    integer already. *)
Definition rint (x : spec_float) : spec_float :=
  match x with
  | S754_finite s m e =>
      if decide (0 ≤ e) then x
      else
        let d := 2 ^ (- e) in
        let f := Z.pos m / d in
        let r := Z.pos m mod d in
        let n := if decide (2 * r < d) then f
                 else if decide (d < 2 * r) then f + 1
                 else if Z.even f then f else f + 1 in
        binary_normalize prec emax (if s then - n else n) 0 s
  | _ => x
  end.

(** numpy's [power_of_ten]. *)
Definition power_of_ten (decimals : nat) : spec_float :=
  of_Z (10 ^ Z.of_nat decimals).

(** [np.round(x, decimals)] and [Series.round(decimals)] on one float64
    cell, as numpy computes it: [rint(x)] for no decimals, and otherwise
    [rint(x * 10 ** decimals) / 10 ** decimals], each step rounded to
    float64. *)
Definition np_round (x : spec_float) (decimals : nat) : spec_float :=
  match decimals with
  | O => rint x
  | S _ => div (rint (mul x (power_of_ten decimals))) (power_of_ten decimals)
  end.

Definition is_finite (x : spec_float) : bool :=
  match x with
  | S754_zero _ | S754_finite _ _ _ => true
  | _ => false
  end.

(** The integer part of a finite float64, cut towards zero. *)
Definition trunc (x : spec_float) : Z :=
  match x with
  | S754_finite s m e =>
      let n := if decide (0 ≤ e) then Z.pos m * 2 ^ e
               else Z.pos m / 2 ^ (- e) in
      if s then - n else n
  | _ => 0
  end.

(** [.astype(int)] on a float64 cell: pandas raises when the column has a
    NaN or an infinity; a finite number is cut towards zero.  The target is
    int64: a number outside its range comes out as the least int64, which
    is what the conversion instruction of x86-64 delivers. *)
Definition astype_int (x : spec_float) : result Z :=
  if is_finite x then
    let z := trunc x in
    Ok (if decide (- 2 ^ 63 ≤ z < 2 ^ 63) then z else - 2 ^ 63)
  else Raise IntCastingNaNError.

End Float64.

(** ** The percent change of [page_hist_changes] in binary64
       (app.py, lines 893-912) *)

Module HistChanges64.

(** [np.round(100 * ((ref - base) / base), 1)] on one row. *)
Definition pct_change (base ref : spec_float) : spec_float :=
  Float64.np_round
    (Float64.mul (Float64.of_Z 100) (Float64.div (Float64.sub ref base) base))
    1.

(** One row of the frame after the column [% change] is added. *)
Record ChangeRow : Type := mkChangeRow {
  c_municipality : string;
  c_base : spec_float;
  c_ref : spec_float;
  c_change : spec_float
}.

Record ChangeTable : Type := mkChangeTable {
  t_years : list Z;
  t_rows : list ChangeRow
}.

(** The float64 in the cell of municipality [m] in the year column [y]. *)
Definition at_ (p : HistChanges.Pivoted) (m : string) (y : Z) : spec_float :=
  Float64.of_cell (HistChanges.at_ p m y).

(** Lines 893-912, the selections and the pivot as in
    [HistChanges.pivot_and_change]. *)
Definition pivot_and_change (df : DataFrame) (price_types : list string)
    (base_year ref_year : Z) (metric_for_use : string) : result ChangeTable :=
  let relevant_years := [base_year; ref_year] in
  let data_to_display := filter (λ r, Year r ∈ relevant_years) df in
  let data_to_display := filter (λ r, PriceType r ∈ price_types) data_to_display in
  p ← HistChanges.pivot data_to_display metric_for_use;
  _ ← HistChanges.has_column p ref_year;
  _ ← HistChanges.has_column p base_year;
  Ok {| t_years := HistChanges.columns p;
        t_rows := (λ m, mkChangeRow m (at_ p m base_year) (at_ p m ref_year)
                          (pct_change (at_ p m base_year) (at_ p m ref_year)))
                  <$> HistChanges.index p |}.

(** The index of the table. *)
Definition municipalities (t : ChangeTable) : list string :=
  c_municipality <$> t_rows t.

End HistChanges64.

(** ** Rounding in binary64, page by page *)

Module Rounding64.

(** A cell as a page shows it: a float64, or an integer after
    [.astype(int)]. *)
Inductive shown : Type :=
  | AsFloat (x : spec_float)
  | AsInt (z : Z).

#[global] Instance shown_eq_dec : EqDecision shown.
Proof. solve_decision. Defined.

(** [page_avg_by_mncp], lines 447-453, and [page_annual_price_overview],
    lines 1056-1062: what becomes of a cell of the chosen metric. *)
Definition page_avg_by_mncp (metric_for_use : string) (x : spec_float)
    : spec_float :=
  if decide (metric_for_use = "AvgSalesPrice") then Float64.np_round x 0
  else Float64.np_round x 2.

Definition page_annual_price_overview (metric_for_use : string)
    (x : spec_float) : spec_float :=
  if decide (metric_for_use = "AvgSalesPrice") then Float64.np_round x 0
  else Float64.np_round x 2.

(** [page_afford_by_mncp], lines 562-563. *)
Definition page_afford_by_mncp (metric_for_use : string) (x : spec_float)
    : spec_float :=
  Float64.np_round x 2.

(** [page_hist_changes], lines 914-920: the two year columns of the pivoted
    table hold the chosen metric. *)
Definition page_hist_changes (metric_for_use : string) (x : spec_float)
    : result shown :=
  if decide (metric_for_use = "AvgSalesPrice")
  then z ← Float64.astype_int (Float64.np_round x 0); Ok (AsInt z)
  else Ok (AsFloat (Float64.np_round x 1)).

(** [page_annual_afford_overview], lines 1285-1286: the metric of the page
    is the column [M2AffordedTotal]. *)
Definition page_annual_afford_overview (x : spec_float) : spec_float :=
  Float64.np_round x 0.

End Rounding64.

(** ** What pandas promises of a sort

    [sort_values] sorts with [kind="quicksort"] unless told otherwise, and
    that sort is not stable: how rows with equal keys come out is left to
    the implementation and differs between numpy builds. *)

Module SortContract.

(** [out] can be the result of [df.sort_values(col, ascending=...)]: the
    rows with a NaN key are last, in row order, and before them the other
    rows are rearranged into the order of their keys. *)
Definition sort_values (col : string) (ascending : bool) (df out : DataFrame)
    : Prop :=
  ∃ numbered,
    out = numbered ++ filter (λ r, cell r col = NaN) df ∧
    numbered ≡ₚ filter (λ r, cell r col ≠ NaN) df ∧
    StronglySorted
      (λ r1 r2, Ranking.in_order ascending (cell r1 col) (cell r2 col))
      numbered.

End SortContract.

(** ** The charts a ranking block can give
       (app.py, lines 1038-1045 and 1104-1115) *)

Module Charts.


(** [out] can be the frame a ranking block charts: the statements of
    [Ranking.top_n], each sort being any sort pandas may do. *)
Definition top_n (rank_col : string) (rank_ascending : bool)
    (chart_col : string) (chart_ascending : bool)
    (data_to_display : DataFrame) (year_to_show : Z) (n_mncp_to_show : nat)
    (out : DataFrame) : Prop :=
  ∃ ranked,
    SortContract.sort_values rank_col rank_ascending
      (Overview.pool data_to_display year_to_show) ranked ∧
    SortContract.sort_values chart_col chart_ascending
      (take n_mncp_to_show ranked) out.

(** Lines 1107-1115. *)
Definition most_expensive (data_to_display : DataFrame) (year_to_show : Z)
    (n_mncp_to_show : nat) (metric_for_use : string) (out : DataFrame) : Prop :=
  top_n "AvgSalesPrice" false metric_for_use true
    data_to_display year_to_show n_mncp_to_show out.

End Charts.

(** * Properties *)

(** ** The recency indexer *)

Section recency_facts.
Import Recency.

Lemma elem_of_unique (l : list Z) (x : Z) : x ∈ unique l ↔ x ∈ l.
Proof.
  unfold unique. by rewrite elem_of_reverse, elem_of_remove_dups, elem_of_reverse.
Qed.

Lemma NoDup_unique (l : list Z) : NoDup (unique l).
Proof. unfold unique. rewrite reverse_Permutation. apply NoDup_remove_dups. Qed.

Lemma elem_of_historical_years (df : DataFrame) (y : Z) :
  y ∈ historical_years df ↔
  ∃ r, r ∈ df ∧ PriceType r ≠ "Predicted price" ∧ Year r = y.
Proof.
  unfold historical_years. rewrite elem_of_unique, list_elem_of_fmap.
  split.
  - intros (r & -> & Hr). apply list_elem_of_filter in Hr as [? ?]. eauto.
  - intros (r & ? & ? & <-). exists r. split; [done|].
    apply list_elem_of_filter. done.
Qed.

Lemma unique_years_perm (df : DataFrame) :
  unique_years df ≡ₚ historical_years df.
Proof. apply merge_sort_Permutation. Qed.

Lemma elem_of_unique_years (df : DataFrame) (y : Z) :
  y ∈ unique_years df ↔ y ∈ historical_years df.
Proof. by rewrite unique_years_perm. Qed.

Lemma NoDup_unique_years (df : DataFrame) : NoDup (unique_years df).
Proof. rewrite unique_years_perm. apply NoDup_unique. Qed.

Lemma length_unique_years (df : DataFrame) :
  length (unique_years df) = length (historical_years df).
Proof. by rewrite unique_years_perm. Qed.

#[local] Instance Zge_trans : Transitive Z.ge.
Proof. intros x y z. lia. Qed.

#[local] Instance Zge_total : Total Z.ge.
Proof. intros x y. lia. Qed.

Lemma unique_years_sorted (df : DataFrame) :
  StronglySorted Z.ge (unique_years df).
Proof. apply (StronglySorted_merge_sort Z.ge). Qed.

(** In a list sorted from the latest year down and free of repetitions, a
    later position holds a strictly earlier year. *)
Lemma sorted_lookup_gt (l : list Z) (i j : nat) (a b : Z) :
  StronglySorted Z.ge l → NoDup l →
  l !! i = Some a → l !! j = Some b → (i < j)%nat → b < a.
Proof.
  intros Hs. revert i j a b.
  induction Hs as [|x l Hs IH Hall]; intros i j a b Hnd Hi Hj Hlt; [done|].
  inversion_clear Hnd as [|?? Hx Hnd'].
  destruct j as [|j]; [lia|]. simpl in Hj.
  destruct i as [|i]; simpl in Hi.
  - simplify_eq. assert (b ∈ l) as Hb by (eapply list_elem_of_lookup_2; done).
    eapply Forall_lookup_1 in Hall; [|exact Hj].
    assert (a ≠ b) by (intros ->; done). lia.
  - eapply (IH i j); eauto with lia.
Qed.

Lemma dict_foldl_notin (ks vs : list Z) (m : gmap Z Z) (k : Z) :
  k ∉ ks →
  foldl (λ m kv, <[kv.1 := kv.2]> m) m (zip ks vs) !! k = m !! k.
Proof.
  revert vs m. induction ks as [|k' ks IH]; intros vs m Hk; [done|].
  destruct vs as [|v vs]; [done|]. simpl.
  apply not_elem_of_cons in Hk as [? ?].
  rewrite IH by done. by rewrite lookup_insert_ne.
Qed.

Lemma dict_zip_lookup (ks vs : list Z) (i : nat) (k v : Z) :
  NoDup ks → ks !! i = Some k → vs !! i = Some v →
  dict (zip ks vs) !! k = Some v.
Proof.
  unfold dict. generalize (∅ : gmap Z Z).
  revert vs i. induction ks as [|k' ks IH]; intros vs i m Hnd Hk Hv; [done|].
  inversion_clear Hnd as [|?? Hk' Hnd'].
  destruct vs as [|v' vs]; [by destruct i|].
  destruct i as [|i]; simpl in *.
  - simplify_eq. rewrite dict_foldl_notin by done. by rewrite lookup_insert_eq.
  - eapply IH; eauto.
Qed.

Lemma dict_zip_notin (ks vs : list Z) (k : Z) :
  k ∉ ks → dict (zip ks vs) !! k = None.
Proof. intros. unfold dict. by rewrite dict_foldl_notin. Qed.

(** The year at position [i] of [unique_years] has rank [i + 1]. *)
Lemma annual_recency_lookup (df : DataFrame) (i : nat) (y : Z) :
  unique_years df !! i = Some y →
  annual_recency df !! y = Some (1 + Z.of_nat i).
Proof.
  intros Hy. unfold annual_recency.
  eapply dict_zip_lookup; [apply NoDup_unique_years|done|].
  unfold n_possible_years, arange, n_years.
  apply lookup_seqZ. split; [done|].
  apply lookup_lt_Some in Hy. rewrite length_unique_years in Hy. lia.
Qed.

Lemma annual_recency_None (df : DataFrame) (y : Z) :
  y ∉ historical_years df → annual_recency df !! y = None.
Proof.
  intros Hy. apply dict_zip_notin. by rewrite elem_of_unique_years.
Qed.

Lemma Recency_position (df : DataFrame) (i : nat) (y : Z) :
  unique_years df !! i = Some y →
  Recency (annual_recency df) y = 1 + Z.of_nat i.
Proof. intros Hy. unfold Recency. by rewrite (annual_recency_lookup _ i). Qed.

Lemma Recency_outside (df : DataFrame) (y : Z) :
  y ∉ historical_years df → Recency (annual_recency df) y = 0.
Proof. intros Hy. unfold Recency. by rewrite annual_recency_None. Qed.

Lemma historical_position (df : DataFrame) (y : Z) :
  y ∈ historical_years df → ∃ i, unique_years df !! i = Some y.
Proof.
  intros Hy. apply elem_of_unique_years in Hy.
  by apply list_elem_of_lookup_1 in Hy.
Qed.

End recency_facts.

Lemma filter_none {A : Type} (P : A → Prop) `{!∀ x, Decision (P x)}
    (l : list A) :
  Forall (λ x, ¬ P x) l → filter P l = [].
Proof.
  induction 1 as [|x l Hx _ IH]; [done|].
  by rewrite filter_cons_False.
Qed.

Section recency_claims.
Import Recency.

(** In a list sorted from the latest year down and free of repetitions, the
    position of a year is the number of years after it. *)
Lemma sorted_position_count (l : list Z) (i : nat) (y : Z) :
  StronglySorted Z.ge l → NoDup l → l !! i = Some y →
  length (filter (λ z, y < z) l) = i.
Proof.
  intros Hs. revert i.
  induction Hs as [|x l Hs IH Hall]; intros i Hnd Hi; [done|].
  assert (Hnd0 := Hnd). inversion_clear Hnd as [|?? Hx Hnd'].
  destruct i as [|i]; simpl in Hi.
  - simplify_eq. rewrite filter_cons_False by lia.
    assert (filter (λ z, y < z) l = []) as ->; [|done].
    apply filter_none. eapply list.Forall_impl; [exact Hall|].
    simpl. lia.
  - assert (y < x).
    { apply (sorted_lookup_gt (x :: l) 0 (S i)); try done; [by constructor|lia]. }
    rewrite filter_cons_True by done. simpl. f_equal. by apply IH.
Qed.

(** The rank of a historical year is one more than the number of
    historical years after it. *)
Lemma Recency_count (df : DataFrame) (y : Z) :
  y ∈ historical_years df →
  Recency (annual_recency df) y =
  1 + Z.of_nat (length (filter (λ z, y < z) (historical_years df))).
Proof.
  intros Hy. destruct (historical_position df y Hy) as [i Hi].
  rewrite (Recency_position df i y Hi). do 2 f_equal.
  rewrite <- (unique_years_perm df).
  symmetry. apply sorted_position_count; [apply unique_years_sorted| |done].
  apply NoDup_unique_years.
Qed.

End recency_claims.

(** C3. The recency map is strictly antitone in calendar time on the
    historical years; the most recent historical year, which is
    [last_hist_year], has rank 1; a single historical year has rank 1; the
    ranks of the historical years lie between 1 and their number; and a year
    outside the historical years (one present only in predicted rows, or
    absent) has rank 0. *)
Theorem recency_map_antitone (df : DataFrame) :
  let rank := Recency.Recency (Recency.annual_recency df) in
  let hist := Recency.historical_years df in
  (∀ y1 y2, y1 ∈ hist → y2 ∈ hist → y1 < y2 → rank y2 < rank y1) ∧
  (∀ y, y ∈ hist → (∀ z, z ∈ hist → z ≤ y) → rank y = 1) ∧
  (∀ y, Recency.last_hist_year df = Some y → rank y = 1) ∧
  (∀ y, hist = [y] → rank y = 1) ∧
  (∀ y, y ∈ hist → 1 ≤ rank y ≤ Recency.n_years df) ∧
  (∀ y, y ∈ Recency.future_years df → y ∉ hist → rank y = 0) ∧
  (∀ y, y ∉ hist → rank y = 0).
Proof.
  intros rank hist.
  assert (Hmax : ∀ y, y ∈ hist → (∀ z, z ∈ hist → z ≤ y) → rank y = 1).
  { intros y Hy Hle. unfold rank. rewrite Recency_count by done.
    assert (filter (λ z, y < z) (Recency.historical_years df) = []) as ->; [|done].
    apply filter_none, list.Forall_forall. intros z Hz. specialize (Hle z Hz). lia. }
  split_and!; [|done|..].
  - intros y1 y2 H1 H2 Hlt.
    destruct (historical_position df y1 H1) as [i1 Hi1].
    destruct (historical_position df y2 H2) as [i2 Hi2].
    unfold rank. rewrite (Recency_position df i1 y1 Hi1), (Recency_position df i2 y2 Hi2).
    destruct (decide (i2 < i1)%nat) as [|Hn]; [lia|].
    destruct (decide (i1 = i2)) as [->|]; [simplify_eq; lia|].
    assert (y2 < y1); [|lia].
    apply (sorted_lookup_gt (Recency.unique_years df) i1 i2);
      auto using unique_years_sorted, NoDup_unique_years with lia.
  - intros y Hy. unfold Recency.last_hist_year in Hy.
    rewrite head_lookup in Hy. unfold rank.
    by rewrite (Recency_position df 0 y Hy).
  - intros y Hy. apply Hmax; fold hist; rewrite Hy.
    + by apply list_elem_of_singleton.
    + intros z ->%list_elem_of_singleton. lia.
  - intros y Hy. destruct (historical_position df y Hy) as [i Hi].
    unfold rank. rewrite (Recency_position df i y Hi).
    apply lookup_lt_Some in Hi. rewrite length_unique_years in Hi.
    unfold Recency.n_years. lia.
  - intros y _ Hy. by apply Recency_outside.
  - intros y Hy. by apply Recency_outside.
Qed.

(** ** The view filter *)

(** C1. With a threshold of at least 1, a row is kept by the recency step
    exactly when its rank is at most the threshold; for a historical year
    that is exactly when fewer than [max_recency] historical years come
    after it; a row of a year outside the historical years has rank 0,
    passes the recency step whatever the threshold, and is in the final
    view of the selected locations exactly when its price type is allowed. *)
Theorem view_filter_recency (df : DataFrame) (max_recency : Z)
    (selected_locations price_types : list string) (r : PanelRow) :
  1 ≤ max_recency →
  let m := Recency.annual_recency df in
  let rank := Recency.Recency m (Year r) in
  let hist := Recency.historical_years df in
  (r ∈ View.recency_filter m max_recency df ↔ r ∈ df ∧ rank ≤ max_recency) ∧
  (r ∈ View.data_to_display m df max_recency selected_locations price_types ↔
     r ∈ df ∧ rank ≤ max_recency ∧
     Municipality r ∈ selected_locations ∧ PriceType r ∈ price_types) ∧
  (Year r ∈ hist →
     (rank ≤ max_recency ↔
      Z.of_nat (length (filter (λ z, Year r < z) hist)) < max_recency)) ∧
  (Year r ∉ hist →
     rank = 0 ∧
     (r ∈ View.recency_filter m max_recency df ↔ r ∈ df) ∧
     (Municipality r ∈ selected_locations →
      (r ∈ View.data_to_display m df max_recency selected_locations price_types ↔
       r ∈ df ∧ PriceType r ∈ price_types))).
Proof.
  intros Hmax m rank hist.
  assert (Hstep : r ∈ View.recency_filter m max_recency df ↔
                  r ∈ df ∧ rank ≤ max_recency).
  { unfold View.recency_filter. rewrite list_elem_of_filter. tauto. }
  assert (Hview : r ∈ View.data_to_display m df max_recency
                        selected_locations price_types ↔
                  r ∈ df ∧ rank ≤ max_recency ∧
                  Municipality r ∈ selected_locations ∧ PriceType r ∈ price_types).
  { unfold View.data_to_display. rewrite !list_elem_of_filter, Hstep. tauto. }
  split; [done|]. split; [done|]. split.
  - intros Hy. unfold rank, m. rewrite Recency_count by done. fold hist. lia.
  - intros Hy. assert (rank = 0) as H0 by (by apply Recency_outside).
    split; [done|]. rewrite Hview, Hstep, H0. split; [|intros ?]; split; try tauto.
    + intros ?. split; [tauto|lia].
    + intros [? ?]. split; [done|]. split; [lia|done].
Qed.

(** The ranks of [Sample.ten_years] and the window of the three most recent
    years. *)
Example ten_years_ranks :
  (λ r, Recency.Recency (Recency.annual_recency Sample.ten_years) (Year r))
    <$> Sample.ten_years
  = [10; 9; 8; 7; 6; 5; 4; 3; 2; 1; 0; 0].
Proof. by vm_compute. Qed.

Example ten_years_window_incl_predictions :
  Year <$> View.data_to_display (Recency.annual_recency Sample.ten_years)
             Sample.ten_years 3 ["Odense"]
             ["Actual price"; "Estimated price"; "Predicted price"]
  = [2017; 2018; 2019; 2020; 2021].
Proof. by vm_compute. Qed.

Example ten_years_window_incl_estimates :
  Year <$> View.data_to_display (Recency.annual_recency Sample.ten_years)
             Sample.ten_years 3 ["Odense"] ["Actual price"; "Estimated price"]
  = [2017; 2018; 2019].
Proof. by vm_compute. Qed.

Lemma view_filter_recency_witness :
  Sample.row 2020 "Odense" "Predicted price" 20
    ∈ View.data_to_display (Recency.annual_recency Sample.ten_years)
        Sample.ten_years 3 ["Odense"]
        ["Actual price"; "Estimated price"; "Predicted price"].
Proof.
  destruct (view_filter_recency Sample.ten_years 3 ["Odense"]
              ["Actual price"; "Estimated price"; "Predicted price"]
              (Sample.row 2020 "Odense" "Predicted price" 20))
    as (_ & Hview & _); [lia|].
  apply Hview. split; [|split; [by vm_compute|split]].
  - unfold Sample.ten_years. do 10 apply list_elem_of_further. apply list_elem_of_here.
  - apply list_elem_of_here.
  - simpl. do 2 apply list_elem_of_further. apply list_elem_of_here.
Defined.

(** ** The sidebar resolvers *)

(** C6. The resolver sends the three named combinations to the label sets
    of {Actual, Estimated}, {Actual} and {Actual, Estimated, Predicted};
    each is a non-empty subset of the taxonomy, and they form a strict
    chain, so they are pairwise distinct and grow in size. *)
Theorem price_type_resolver :
  let resolve :=
    Sidebar.filter_price_type_new Sidebar.price_type_combinations
      "Historical data incl. estimates" in
  ∃ excl incl pred : list string,
    resolve "Historical data excl. estimates" = Ok excl ∧
    resolve "Historical data incl. estimates" = Ok incl ∧
    resolve "Historical data and predictions" = Ok pred ∧
    excl = Sidebar.label <$> [Sidebar.Actual] ∧
    incl = Sidebar.label <$> [Sidebar.Actual; Sidebar.Estimated] ∧
    pred = Sidebar.label
             <$> [Sidebar.Actual; Sidebar.Estimated; Sidebar.Predicted] ∧
    (∀ l, l ∈ [excl; incl; pred] → l ≠ [] ∧ l ⊆ Sidebar.taxonomy) ∧
    (list_to_set excl : gset string) ⊂ list_to_set incl ∧
    (list_to_set incl : gset string) ⊂ list_to_set pred ∧
    (list_to_set excl : gset string) ≠ list_to_set incl ∧
    (list_to_set incl : gset string) ≠ list_to_set pred ∧
    (list_to_set excl : gset string) ≠ list_to_set pred ∧
    size (list_to_set excl : gset string) = 1%nat ∧
    size (list_to_set incl : gset string) = 2%nat ∧
    size (list_to_set pred : gset string) = 3%nat.
Proof.
  intros resolve.
  exists ["Actual price"], ["Actual price"; "Estimated price"],
    ["Actual price"; "Estimated price"; "Predicted price"].
  split_and!; try done.
  all: try (by vm_compute).
  - intros l Hl. unfold Sidebar.taxonomy. simpl.
    apply list_elem_of_In in Hl. simpl in Hl.
    destruct Hl as [<-|[<-|[<-|[]]]];
      (split; [done|intros x Hx; apply list_elem_of_In in Hx;
                    apply list_elem_of_In; simpl in *; tauto]).
  - split.
    + intros x. rewrite !elem_of_list_to_set, !list_elem_of_In. simpl. tauto.
    + intros H. specialize (H "Estimated price").
      rewrite !elem_of_list_to_set, !list_elem_of_In in H. simpl in H.
      destruct H as [|[]]; [tauto|done].
  - split.
    + intros x. rewrite !elem_of_list_to_set, !list_elem_of_In. simpl. tauto.
    + intros H. specialize (H "Predicted price").
      rewrite !elem_of_list_to_set, !list_elem_of_In in H. simpl in H.
      destruct H as [|[|[]]]; [tauto|done..].
Qed.

(** C7 as stated fails: outside the known labels [filter_metric] returns
    [None], and outside the three combinations [filter_price_type_new]
    stops with Python's [UnboundLocalError]. *)
Lemma resolvers_outside_enumeration_cex :
  ("Median price" ∉ Sidebar.known_metrics) ∧
  Sidebar.filter_metric "Median price" = Ok None ∧
  ("Everything" ∉ Sidebar.price_type_combinations) ∧
  Sidebar.filter_price_type_new
    ("Everything" :: Sidebar.price_type_combinations)
    "Historical data incl. estimates" "Everything" = Raise UnboundLocalError.
Proof.
  split_and!; try done.
  - intros H. apply list_elem_of_In in H. simpl in H.
    destruct H as [H|[H|[H|[H|[]]]]]; discriminate H.
  - intros H. apply list_elem_of_In in H. simpl in H.
    destruct H as [H|[H|[H|[]]]]; discriminate H.
Qed.

(** C7, amended.  A metric label outside the known ones makes
    [filter_metric] return [None] without an error; a combination outside
    the three named ones makes [filter_price_type_new] raise
    [UnboundLocalError]. *)
Theorem resolvers_outside_enumeration (selected_metric : string)
    (possible_entries : list string) (default_val selected_combination : string) :
  selected_metric ∉ Sidebar.known_metrics →
  selected_combination ∉ Sidebar.price_type_combinations →
  default_val ∈ possible_entries →
  Sidebar.filter_metric selected_metric = Ok None ∧
  Sidebar.filter_price_type_new possible_entries default_val selected_combination
    = Raise UnboundLocalError.
Proof.
  intros Hm Hc Hd. split.
  - unfold Sidebar.filter_metric.
    repeat case_decide; try done; subst; exfalso; apply Hm;
      apply list_elem_of_In; simpl; tauto.
  - unfold Sidebar.filter_price_type_new.
    repeat case_decide; try done; subst; exfalso; apply Hc;
      apply list_elem_of_In; simpl; tauto.
Qed.

Lemma resolvers_outside_enumeration_witness :
  Sidebar.filter_metric "Median price" = Ok None ∧
  Sidebar.filter_price_type_new
    ("Everything" :: Sidebar.price_type_combinations)
    "Historical data incl. estimates" "Everything" = Raise UnboundLocalError.
Proof.
  apply (resolvers_outside_enumeration "Median price"
           ("Everything" :: Sidebar.price_type_combinations)
           "Historical data incl. estimates" "Everything").
  - intros H. apply list_elem_of_In in H. simpl in H.
    destruct H as [H|[H|[H|[H|[]]]]]; discriminate H.
  - intros H. apply list_elem_of_In in H. simpl in H.
    destruct H as [H|[H|[H|[]]]]; discriminate H.
  - apply list_elem_of_further, list_elem_of_here.
Defined.

(** ** The pricing overview page *)

(** C10. The frame prepared for the geo plot is empty: the selection
    compares the string column [PriceType] with the chosen year, an
    integer, and no row passes. *)
Theorem data_selected_year_empty (df : DataFrame) (price_types : list string)
    (metric_for_use : string) (year_to_show : Z) :
  Overview.data_selected_year
    (Overview.data_to_display df price_types metric_for_use) year_to_show = [].
Proof.
  unfold Overview.data_selected_year.
  set (d := Overview.data_to_display _ _ _).
  assert (filter (λ r, Overview.py_eq (Overview.PyStr (PriceType r))
                         (Overview.PyInt year_to_show) = true) d = []) as ->;
    [|done].
  apply filter_none, list.Forall_forall. intros r _. simpl. done.
Qed.

(** ** Float arithmetic *)

Lemma Float_mul_comm (x y : float) : Float.mul x y = Float.mul y x.
Proof.
  destruct x as [a| | |], y as [b| | |]; simpl; try done.
  f_equal. ring.
Qed.

Lemma pct_change_nan_base (ref : float) : HistChanges.pct_change NaN ref = NaN.
Proof. by destruct ref. Qed.

Lemma pct_change_nan_ref (base : float) : HistChanges.pct_change base NaN = NaN.
Proof. by destruct base. Qed.

(** Over a zero base a nonzero finite value gives the infinity of its sign. *)
Lemma pct_change_zero_base (q : Qc) :
  q ≠ 0%Qc →
  HistChanges.pct_change (Fin 0%Qc) (Fin q) = Float.inf_of_sign q.
Proof.
  intros Hq. unfold HistChanges.pct_change. simpl.
  assert ((q - Q2Qc 0)%Qc = q) as -> by ring.
  rewrite decide_False by done.
  unfold Float.inf_of_sign at 1 3. by case_decide.
Qed.

Lemma Float_sub_same (q : Qc) : Float.sub (Fin q) (Fin q) = Fin 0%Qc.
Proof. unfold Float.sub. f_equal. ring. Qed.

Lemma Float_div_zero_l (q : Qc) :
  q ≠ 0%Qc → Float.div (Fin 0%Qc) (Fin q) = Fin 0%Qc.
Proof.
  intros Hq. unfold Float.div. rewrite decide_False by done.
  f_equal. unfold Qcdiv. ring.
Qed.

Lemma Float_mul_zero_r (q : Qc) : Float.mul (Fin q) (Fin 0%Qc) = Fin 0%Qc.
Proof. unfold Float.mul. f_equal. ring. Qed.

Lemma Float_round_zero (decimals : nat) :
  Float.round (Fin 0%Qc) decimals = Fin 0%Qc.
Proof.
  unfold Float.round. f_equal.
  assert ((0 * Float.pow10 decimals)%Qc = 0%Qc) as -> by ring.
  assert (Float.rint 0%Qc = 0) as -> by (by vm_compute).
  rewrite Z2Qc_inj_0. unfold Qcdiv. ring.
Qed.

(** A nonzero finite value compared with itself changes by zero. *)
Lemma pct_change_same (q : Qc) :
  q ≠ 0%Qc → HistChanges.pct_change (Fin q) (Fin q) = Fin 0%Qc.
Proof.
  intros Hq. unfold HistChanges.pct_change.
  rewrite Float_sub_same, Float_div_zero_l by done.
  by rewrite Float_mul_zero_r, Float_round_zero.
Qed.

(** ** The pivot and the percent change *)

Section pivot_facts.
Import HistChanges.

Lemma elem_of_selected (df : DataFrame) (pts : list string) (b rf : Z)
    (r : PanelRow) :
  r ∈ selected df pts b rf ↔
  r ∈ df ∧ PriceType r ∈ pts ∧ (Year r = b ∨ Year r = rf).
Proof.
  unfold selected. rewrite !list_elem_of_filter.
  assert (Year r ∈ [b; rf] ↔ Year r = b ∨ Year r = rf) as ->; [|tauto].
  rewrite list_elem_of_In. simpl. intuition congruence.
Qed.

Lemma pivot_Ok (d : DataFrame) (col : string) :
  NoDup (key <$> d) →
  pivot d col =
  Ok {| columns := merge_sort Z.le (remove_dups (Year <$> d));
        index := merge_sort String.le (remove_dups (Municipality <$> d));
        values := list_to_map ((λ r, (key r, cell r col)) <$> d) |}.
Proof. intros Hnd. unfold pivot. by rewrite decide_True. Qed.

Lemma pivot_inv (d : DataFrame) (col : string) (p : Pivoted) :
  pivot d col = Ok p →
  NoDup (key <$> d) ∧
  p = {| columns := merge_sort Z.le (remove_dups (Year <$> d));
         index := merge_sort String.le (remove_dups (Municipality <$> d));
         values := list_to_map ((λ r, (key r, cell r col)) <$> d) |}.
Proof. unfold pivot. case_decide; [|done]. by intros [= <-]. Qed.

Lemma elem_of_columns (d : DataFrame) (col : string) (p : Pivoted) (y : Z) :
  pivot d col = Ok p → (y ∈ columns p ↔ ∃ r, r ∈ d ∧ Year r = y).
Proof.
  intros [_ ->]%pivot_inv. simpl.
  rewrite merge_sort_Permutation, elem_of_remove_dups, list_elem_of_fmap.
  split; [intros (r & -> & ?); eauto|intros (r & ? & <-); eauto].
Qed.

Lemma elem_of_index (d : DataFrame) (col : string) (p : Pivoted) (m : string) :
  pivot d col = Ok p → (m ∈ index p ↔ ∃ r, r ∈ d ∧ Municipality r = m).
Proof.
  intros [_ ->]%pivot_inv. simpl.
  rewrite merge_sort_Permutation, elem_of_remove_dups, list_elem_of_fmap.
  split; [intros (r & -> & ?); eauto|intros (r & ? & <-); eauto].
Qed.


(** The cell of a municipality and year for which the frame has no row. *)
Lemma at_missing (d : DataFrame) (col : string) (p : Pivoted) (m : string)
    (y : Z) :
  pivot d col = Ok p →
  (∀ r, r ∈ d → Municipality r = m → Year r ≠ y) →
  at_ p m y = NaN.
Proof.
  intros [Hnd ->]%pivot_inv Hno. unfold at_. simpl.
  rewrite (not_elem_of_list_to_map_1 _ (m, y)); [done|].
  rewrite <- list_fmap_compose. intros (r & Hk & Hr)%list_elem_of_fmap.
  simpl in Hk. unfold key in Hk. simplify_eq. by eapply Hno.
Qed.

(** When the computation returns, it returned the table built from the
    pivot, and both years are columns of it. *)
Lemma pivot_and_change_inv (df : DataFrame) (pts : list string) (b rf : Z)
    (col : string) (t : ChangeTable) :
  pivot_and_change df pts b rf col = Ok t →
  ∃ p, pivot (selected df pts b rf) col = Ok p ∧
       rf ∈ columns p ∧ b ∈ columns p ∧
       t = {| t_years := columns p;
              t_rows := (λ m, mkChangeRow m (at_ p m b) (at_ p m rf)
                                (pct_change (at_ p m b) (at_ p m rf)))
                        <$> index p |}.
Proof.
  unfold pivot_and_change. fold (selected df pts b rf).
  destruct (pivot (selected df pts b rf) col) as [p|e] eqn:Hp; [|done].
  simpl. unfold has_column.
  destruct (decide (rf ∈ columns p)); [|done]. simpl.
  destruct (decide (b ∈ columns p)); [|done]. simpl.
  intros [= <-]. by exists p.
Qed.

(** The computation returns when no municipality has two selected rows of
    one year and each of the two years has a selected row. *)
Lemma pivot_and_change_Ok (df : DataFrame) (pts : list string) (b rf : Z)
    (col : string) :
  NoDup (key <$> selected df pts b rf) →
  (∃ r, r ∈ selected df pts b rf ∧ Year r = b) →
  (∃ r, r ∈ selected df pts b rf ∧ Year r = rf) →
  ∃ t, pivot_and_change df pts b rf col = Ok t.
Proof.
  intros Hnd Hb Hrf.
  assert (Hp := pivot_Ok _ col Hnd).
  unfold pivot_and_change. fold (selected df pts b rf). rewrite Hp. simpl.
  unfold has_column.
  rewrite decide_True by (by apply (elem_of_columns _ _ _ _ Hp)). simpl.
  rewrite decide_True by (by apply (elem_of_columns _ _ _ _ Hp)). simpl.
  eauto.
Qed.

End pivot_facts.

(** Closes a decidable closed goal by evaluating its decision. *)
Ltac by_evaluation :=
  match goal with
  | |- ?P => apply (bool_decide_unpack P); vm_compute; exact I
  end.

(** ** binary64 arithmetic *)

Section float64_facts.
Import Float64.


(** NaN goes through the percent change. *)
Lemma pct_change64_nan_base (ref : spec_float) :
  HistChanges64.pct_change S754_nan ref = S754_nan.
Proof. by destruct ref. Qed.

Lemma pct_change64_nan_ref (base : spec_float) :
  HistChanges64.pct_change base S754_nan = S754_nan.
Proof. by destruct base. Qed.

(** Over a zero base a nonzero number gives an infinity: the one of the sign
    of the number over [+0.0], the other one over [-0.0]. *)
Lemma pct_change64_zero_base (sb s : bool) (m : positive) (e : Z) :
  HistChanges64.pct_change (S754_zero sb) (S754_finite s m e)
  = S754_infinity (xorb s sb).
Proof. by destruct s, sb. Qed.

(** Zero over zero is NaN. *)
Lemma pct_change64_zero_zero (sb s : bool) :
  HistChanges64.pct_change (S754_zero sb) (S754_zero s) = S754_nan.
Proof. by destruct s, sb. Qed.

(** A nonzero number compared with itself changes by zero. *)
Lemma pct_change64_same (s : bool) (m : positive) (e : Z) :
  HistChanges64.pct_change (S754_finite s m e) (S754_finite s m e)
  = S754_zero s.
Proof.
  unfold HistChanges64.pct_change.
  assert (sub (S754_finite s m e) (S754_finite s m e) = S754_zero false) as ->.
  { unfold sub, SFsub. by rewrite Z.sub_diag. }
  by destruct s.
Qed.

End float64_facts.

Section pivot64_facts.
Import HistChanges64.



End pivot64_facts.

(** ** The exact table and the float64 table *)

Section exact_and_float64.
Import Float64.

Lemma binary_round_aux_sign (sx s : bool) (mx ex : Z) (lx : location)
    (m : positive) (e : Z) :
  binary_round_aux prec emax sx mx ex lx = S754_finite s m e → s = sx.
Proof.
  unfold binary_round_aux.
  destruct (shr_fexp prec emax mx ex lx) as [mrs' e'].
  destruct (shr_fexp prec emax _ e' loc_Exact) as [mrs'' e''].
  destruct (shr_m mrs''); [done| |done].
  case_match; [|done]. by intros [= <- _ _].
Qed.

Lemma binary_normalize_sign (z ez : Z) (s : bool) (m : positive) (e : Z) :
  binary_normalize prec emax z ez false = S754_finite s m e →
  s = bool_decide (z < 0).
Proof.
  destruct z as [|p|p]; simpl; [done| |].
  - unfold binary_round. destruct (shl_align _ _ _) as [mz ez'].
    by intros ->%binary_round_aux_sign.
  - unfold binary_round. destruct (shl_align _ _ _) as [mz ez'].
    by intros ->%binary_round_aux_sign.
Qed.

(** The float64 of a number has the sign of the number. *)
Lemma of_Qc_sign (q : Qc) (s : bool) (m : positive) (e : Z) :
  of_Qc q = S754_finite s m e → s = bool_decide (q < 0)%Qc.
Proof.
  unfold of_Qc. cbv zeta.
  set (k := Z.max 0 _). set (N := Z.abs (Qnum q) * 2 ^ k).
  set (v := 2 * (N `div` Z.pos (Qden q)) + _).
  intros ->%binary_normalize_sign.
  assert (0 < 2 ^ k) by (apply Z.pow_pos_nonneg; lia).
  assert (0 ≤ N) by (unfold N; nia).
  assert (0 ≤ N `div` Z.pos (Qden q)) by (apply Z.div_pos; lia).
  assert (Hv : Qnum q ≠ 0 → 0 < v).
  { intros Hn. unfold v. case_decide as Hr; [|lia].
    assert (N ≠ 0) by (unfold N; nia).
    pose proof (Z.div_mod N (Z.pos (Qden q))). nia. }
  assert ((q < 0)%Qc ↔ Qnum q < 0) as Hq.
  { unfold Qclt, Qlt. simpl. lia. }
  assert (0 ≤ v) by (unfold v; case_decide; lia).
  apply bool_decide_ext. rewrite Hq.
  case_decide; [assert (0 < v) by (apply Hv; lia)|]; lia.
Qed.

(** Over a zero base the exact percent change and the float64 one are the
    same infinity. *)
Lemma pct_change_zero_base_agree (q : Qc) (s : bool) (m : positive) (e : Z) :
  of_cell (Fin q) = S754_finite s m e →
  HistChanges64.pct_change (of_cell (Fin 0%Qc)) (of_cell (Fin q))
  = of_cell (HistChanges.pct_change (Fin 0%Qc) (Fin q)).
Proof.
  intros Hq. assert (Hs := of_Qc_sign _ _ _ _ Hq).
  assert (of_cell (Fin 0%Qc) = S754_zero false) as -> by reflexivity.
  rewrite Hq, pct_change64_zero_base, xorb_false_r.
  assert (q ≠ 0%Qc) by (by intros ->).
  rewrite pct_change_zero_base by done. unfold Float.inf_of_sign.
  rewrite Hs. by case_decide; [rewrite bool_decide_eq_true_2
                              |rewrite bool_decide_eq_false_2].
Qed.

(** A NaN operand gives NaN in both. *)
Lemma pct_change_nan_agree (x : float) :
  HistChanges64.pct_change (of_cell NaN) (of_cell x)
  = of_cell (HistChanges.pct_change NaN x) ∧
  HistChanges64.pct_change (of_cell x) (of_cell NaN)
  = of_cell (HistChanges.pct_change x NaN).
Proof.
  rewrite pct_change_nan_base, pct_change_nan_ref. simpl.
  by rewrite pct_change64_nan_base, pct_change64_nan_ref.
Qed.

(** The two computations return together and raise together, and their
    tables have the same year columns, the same index and the same two
    year cells, those of the float64 table being the float64 values of the
    exact ones. *)
Lemma change_tables_agree (df : DataFrame) (pts : list string) (b rf : Z)
    (col : string) :
  match HistChanges.pivot_and_change df pts b rf col,
        HistChanges64.pivot_and_change df pts b rf col with
  | Ok t, Ok t64 =>
      HistChanges64.t_years t64 = HistChanges.t_years t ∧
      (λ c, (HistChanges64.c_municipality c, HistChanges64.c_base c,
             HistChanges64.c_ref c)) <$> HistChanges64.t_rows t64
      = (λ c, (HistChanges.c_municipality c, of_cell (HistChanges.c_base c),
               of_cell (HistChanges.c_ref c))) <$> HistChanges.t_rows t
  | Raise e, Raise e64 => e = e64
  | _, _ => False
  end.
Proof.
  unfold HistChanges.pivot_and_change, HistChanges64.pivot_and_change.
  cbv zeta. destruct (HistChanges.pivot _ col) as [p|e]; simpl; [|done].
  destruct (HistChanges.has_column p rf); simpl; [|done].
  destruct (HistChanges.has_column p b); simpl; [|done].
  split; [done|]. by rewrite <- !list_fmap_compose.
Qed.

End exact_and_float64.



(** The zero base of Skagen gives plus infinity, and the other rows are
    what they are without it. *)
Example two_years_changes :
  ∃ t,
    HistChanges64.pivot_and_change Sample.two_years Sample.incl_estimates
      2000 2020 "AvgSalesPrice" = Ok t ∧
    HistChanges64.municipalities t = ["Aarhus"; "Odense"; "Skagen"] ∧
    HistChanges64.c_change <$> HistChanges64.t_rows t
      = [Float64.of_Z 50; S754_nan; S754_infinity false].
Proof.
  eexists. split; [by vm_compute|]. split; by_evaluation.
Qed.

(** From 80 to 103 the change is 28.7: the quotient 0.2875 is not a
    float64, and a hundred times the float64 next to it is a little less
    than 28.75.  The float64 that 28.75 denotes would be rounded to 28.8. *)
Example ribe_change :
  ∃ t,
    HistChanges64.pivot_and_change Sample.ribe_80_103 Sample.incl_estimates
      2000 2020 "AvgSalesPrice" = Ok t ∧
    HistChanges64.municipalities t = ["Aarhus"; "Ribe"] ∧
    HistChanges64.c_change <$> HistChanges64.t_rows t
      = [Float64.of_Z 50; Float64.of_decimal 287 1] ∧
    Float64.np_round (Float64.of_decimal 2875 2) 1 = Float64.of_decimal 288 1.
Proof.
  eexists. split; [by vm_compute|]. split_and!; by_evaluation.
Qed.

(** C4 as stated fails: Odense has a row for 2000 and none for 2020, and it
    is a row of the table all the same, with NaN in the 2020 column and NaN
    as change. *)
Lemma pivot_keeps_partial_cex :
  ∃ t,
    HistChanges.pivot_and_change Sample.two_years Sample.incl_estimates
      2000 2020 "AvgSalesPrice" = Ok t ∧
    (∀ r, r ∈ Sample.two_years → Municipality r = "Odense" → Year r ≠ 2020) ∧
    "Odense" ∈ HistChanges.municipalities t ∧
    HistChanges.c_ref <$> filter (λ c, HistChanges.c_municipality c = "Odense")
                            (HistChanges.t_rows t) = [NaN].
Proof.
  eexists. split; [by vm_compute|]. split; [|split].
  - intros r Hr Hm. apply list_elem_of_In in Hr. simpl in Hr.
    destruct Hr as [<-|[<-|[<-|[<-|[<-|[]]]]]]; done.
  - by_evaluation.
  - by_evaluation.
Qed.

(** C4, amended.  The table has a row for exactly the municipalities with a
    selected row in the base year or in the reference year.  A municipality
    with a row in one of the two years only stays in the table: the column
    of the year it lacks holds NaN, and so does [% change]. *)
Theorem pivot_keeps_partial (df : DataFrame) (price_types : list string)
    (base_year ref_year : Z) (metric_for_use : string)
    (t : HistChanges.ChangeTable) (m : string) :
  HistChanges.pivot_and_change df price_types base_year ref_year
    metric_for_use = Ok t →
  let d := HistChanges.selected df price_types base_year ref_year in
  (m ∈ HistChanges.municipalities t ↔
   ∃ r, r ∈ df ∧ PriceType r ∈ price_types ∧ Municipality r = m ∧
        (Year r = base_year ∨ Year r = ref_year)) ∧
  (∀ c, c ∈ HistChanges.t_rows t → HistChanges.c_municipality c = m →
     ((∀ r, r ∈ d → Municipality r = m → Year r ≠ base_year) →
      HistChanges.c_base c = NaN ∧ HistChanges.c_change c = NaN) ∧
     ((∀ r, r ∈ d → Municipality r = m → Year r ≠ ref_year) →
      HistChanges.c_ref c = NaN ∧ HistChanges.c_change c = NaN)).
Proof.
  intros Ht d.
  destruct (pivot_and_change_inv _ _ _ _ _ _ Ht) as (p & Hp & _ & _ & ->).
  unfold HistChanges.municipalities. simpl. split.
  - rewrite <- list_fmap_compose.
    assert ((HistChanges.c_municipality
               ∘ (λ m0, HistChanges.mkChangeRow m0
                          (HistChanges.at_ p m0 base_year)
                          (HistChanges.at_ p m0 ref_year)
                          (HistChanges.pct_change
                             (HistChanges.at_ p m0 base_year)
                             (HistChanges.at_ p m0 ref_year)))) <$>
            HistChanges.index p = HistChanges.index p) as ->.
    { rewrite <- (list_fmap_id (HistChanges.index p)) at 2.
      by apply list_fmap_ext. }
    rewrite (elem_of_index _ _ _ _ Hp). split.
    + intros (r & Hr & Hm). apply elem_of_selected in Hr. exists r. tauto.
    + intros (r & ? & ? & ? & ?). exists r. split; [|done].
      apply elem_of_selected. tauto.
  - intros c (m' & -> & Hin)%list_elem_of_fmap Hc. simpl in Hc. subst m'.
    simpl. split; intros Hno.
    + rewrite (at_missing _ _ _ m base_year Hp Hno).
      split; [done|apply pct_change_nan_base].
    + rewrite (at_missing _ _ _ m ref_year Hp Hno).
      split; [done|apply pct_change_nan_ref].
Qed.

Lemma pivot_keeps_partial_witness :
  ∃ t,
    HistChanges.pivot_and_change Sample.two_years Sample.incl_estimates
      2000 2020 "AvgSalesPrice" = Ok t ∧
    "Odense" ∈ HistChanges.municipalities t.
Proof.
  eexists. split; [by vm_compute|].
  eapply (pivot_keeps_partial Sample.two_years Sample.incl_estimates
            2000 2020 "AvgSalesPrice" _ "Odense"); [by vm_compute|].
  exists (Sample.row 2000 "Odense" "Actual price" 200).
  split; [|split; [apply list_elem_of_here|split; [done|by left]]].
  do 2 apply list_elem_of_further. apply list_elem_of_here.
Defined.

(** C5 as stated fails: with 2000 as base year and as reference year the
    computation returns a table, with the one year column 2000 and the
    change 0.0 (NaN where the value is zero); it raises nothing. *)
Lemma same_year_comparison_cex :
  ∃ t,
    HistChanges.pivot_and_change Sample.two_years Sample.incl_estimates
      2000 2000 "AvgSalesPrice" = Ok t ∧
    HistChanges.t_years t = [2000] ∧
    HistChanges.municipalities t = ["Aarhus"; "Odense"; "Skagen"] ∧
    HistChanges.c_change <$> HistChanges.t_rows t
      = [Fin 0%Qc; Fin 0%Qc; NaN].
Proof.
  eexists. split; [by vm_compute|]. split_and!; by_evaluation.
Qed.

(** A repetition-free list all of whose members are [y]. *)
Lemma NoDup_constant (l : list Z) (y : Z) :
  NoDup l → l ≠ [] → (∀ x, x ∈ l → x = y) → l = [y].
Proof.
  intros Hnd Hne Hall. destruct l as [|x l]; [done|].
  assert (x = y) as -> by (apply Hall, list_elem_of_here).
  destruct l as [|z l]; [done|].
  assert (z = y) as ->.
  { apply Hall, list_elem_of_further, list_elem_of_here. }
  inversion_clear Hnd as [|?? Hy _]. exfalso. apply Hy, list_elem_of_here.
Qed.

(** C5, amended.  The computation does not compare the two years: with the
    same year [y] as base and as reference it returns, when [y] has a
    selected row and no municipality has two, a table with the single year
    column [y], in which every row has the same base and reference value and
    the change 0.0 when that value is a nonzero number. *)
Theorem same_year_comparison (df : DataFrame) (price_types : list string)
    (y : Z) (metric_for_use : string) :
  NoDup (HistChanges.key <$> HistChanges.selected df price_types y y) →
  (∃ r, r ∈ df ∧ PriceType r ∈ price_types ∧ Year r = y) →
  ∃ t,
    HistChanges.pivot_and_change df price_types y y metric_for_use = Ok t ∧
    HistChanges.t_years t = [y] ∧
    ∀ c, c ∈ HistChanges.t_rows t →
         HistChanges.c_ref c = HistChanges.c_base c ∧
         (∀ q, HistChanges.c_base c = Fin q → q ≠ 0%Qc →
               HistChanges.c_change c = Fin 0%Qc).
Proof.
  intros Hnd (r & Hr & Hp & Hy).
  assert (Hrs : r ∈ HistChanges.selected df price_types y y)
    by (apply elem_of_selected; auto).
  destruct (pivot_and_change_Ok df price_types y y metric_for_use)
    as [t Ht]; [done|by exists r|by exists r|].
  exists t. split; [done|].
  destruct (pivot_and_change_inv _ _ _ _ _ _ Ht) as (p & Hpv & _ & _ & ->).
  simpl. split.
  - destruct (pivot_inv _ _ _ Hpv) as [_ ->]. simpl.
    apply Permutation_singleton_r. rewrite merge_sort_Permutation.
    rewrite (NoDup_constant (remove_dups _) y); [done|apply NoDup_remove_dups| |].
    + intros Hnil. assert (y ∈ remove_dups
        (Year <$> HistChanges.selected df price_types y y)) as Hin.
      { apply elem_of_remove_dups, list_elem_of_fmap. by exists r. }
      rewrite Hnil in Hin. by apply not_elem_of_nil in Hin.
    + intros x (r' & -> & Hr')%elem_of_remove_dups%list_elem_of_fmap.
      apply elem_of_selected in Hr'. tauto.
  - intros c (m & -> & Hin)%list_elem_of_fmap. simpl. split; [done|].
    intros q -> Hq. by apply pct_change_same.
Qed.

Lemma same_year_comparison_witness :
  ∃ t,
    HistChanges.pivot_and_change Sample.two_years Sample.incl_estimates
      2000 2000 "AvgSalesPrice" = Ok t ∧
    HistChanges.t_years t = [2000].
Proof.
  destruct (same_year_comparison Sample.two_years Sample.incl_estimates
              2000 "AvgSalesPrice") as (t & Ht & Hy & _).
  - by_evaluation.
  - exists (Sample.row 2000 "Aarhus" "Actual price" 100).
    split; [apply list_elem_of_here|]. split; [apply list_elem_of_here|done].
  - by exists t.
Defined.

(** ** Rounding, page by page *)

Lemma pow10_0 : Float.pow10 0 = 1%Qc.
Proof. by apply Qc_is_canon. Qed.

(** Rounded to no decimals, a number is an integer, which the cast to
    [int] leaves as it is. *)
Lemma astype_int_round_0 (q : Qc) :
  Rounding.astype_int (Float.round (Fin q) 0) = Ok (Float.round (Fin q) 0).
Proof.
  unfold Float.round. rewrite pow10_0.
  set (n := Float.rint (q * 1)).
  assert ((Qc_of_Z n / 1)%Qc = Qc_of_Z n) as ->.
  { field. discriminate. }
  unfold Rounding.astype_int. simpl. by rewrite Z.quot_1_r.
Qed.

(** [np.round] in float64.  0.545 becomes 0.55 where the number written is
    a tie that would go to the even 0.54; 2.55 and 2.675 become 2.6 and
    2.68 although the float64 nearest to each lies below the tie. *)
Example round_samples :
  Float64.np_round (Float64.of_decimal 25 1) 0 = Float64.of_Z 2 ∧
  Float64.np_round (Float64.of_decimal 35 1) 0 = Float64.of_Z 4 ∧
  Float64.np_round (Float64.of_decimal (-126) 2) 1
    = Float64.of_decimal (-13) 1 ∧
  Float64.np_round (Float64.of_decimal 255 2) 1 = Float64.of_decimal 26 1 ∧
  Float64.np_round (Float64.of_decimal 545 3) 2 = Float64.of_decimal 55 2 ∧
  Float64.np_round (Float64.of_decimal 2675 3) 2 = Float64.of_decimal 268 2 ∧
  Float64.np_round (S754_infinity false) 1 = S754_infinity false ∧
  Float64.np_round S754_nan 1 = S754_nan.
Proof. split_and!; by_evaluation. Qed.

(** The cast of the historical-changes table: a price is shown as an
    integer, NaN raises, and a number too large for int64 comes out as the
    least int64. *)
Example astype_int_samples :
  Rounding64.page_hist_changes "AvgSalesPrice" (Float64.of_decimal 123455 1)
    = Ok (Rounding64.AsInt 12346) ∧
  Rounding64.page_hist_changes "AvgSalesPrice" (Float64.of_decimal (-25) 1)
    = Ok (Rounding64.AsInt (-2)) ∧
  Rounding64.page_hist_changes "AvgSalesPrice" S754_nan
    = Raise IntCastingNaNError ∧
  Rounding64.page_hist_changes "AvgSalesPrice" (S754_infinity true)
    = Raise IntCastingNaNError ∧
  Rounding64.page_hist_changes "AvgSalesPrice" (Float64.of_Z (10 ^ 19))
    = Ok (Rounding64.AsInt (- 2 ^ 63)).
Proof. split_and!; by_evaluation. Qed.

(** C9 as stated fails: the historical-changes table rounds the ratio
    metric [M2AffordedTotal] to one decimal, and the affordability overview
    rounds it to none, where the rule asks for two: 1.26 becomes 1.3 on the
    one page and 1.0 on the other, and with two decimals it would stay
    1.26. *)
Lemma rounding_rule_cex :
  Rounding.spec_decimals "M2AffordedTotal" = 2%nat ∧
  Float64.np_round (Float64.of_decimal 126 2) 2 = Float64.of_decimal 126 2 ∧
  Rounding64.page_hist_changes "M2AffordedTotal" (Float64.of_decimal 126 2)
    = Ok (Rounding64.AsFloat (Float64.of_decimal 13 1)) ∧
  Rounding64.page_annual_afford_overview (Float64.of_decimal 126 2)
    = Float64.of_Z 1 ∧
  Float64.of_decimal 13 1 ≠ Float64.of_decimal 126 2 ∧
  Float64.of_Z 1 ≠ Float64.of_decimal 126 2.
Proof. split_and!; by_evaluation. Qed.

(** C9, amended.  The number of decimals is chosen page by page, each page
    rounding with [np.round] in float64.  The by-municipality price page
    and the pricing overview follow the rule of the specification on their
    two metrics, and so does the affordability page, which rounds to two
    decimals.  The historical-changes table rounds an absolute price to no
    decimals and casts it to an integer, which raises on NaN and on an
    infinity, and gives the two ratio metrics one decimal.  The affordability overview gives [M2AffordedTotal] no
    decimals. *)
Theorem rounding_by_page (x : spec_float) :
  Rounding64.page_avg_by_mncp "AvgSalesPrice" x
    = Float64.np_round x (Rounding.spec_decimals "AvgSalesPrice") ∧
  Rounding64.page_avg_by_mncp "AvgSalesPriceIdx" x
    = Float64.np_round x (Rounding.spec_decimals "AvgSalesPriceIdx") ∧
  Rounding64.page_annual_price_overview "AvgSalesPrice" x
    = Float64.np_round x (Rounding.spec_decimals "AvgSalesPrice") ∧
  Rounding64.page_annual_price_overview "AvgSalesPriceIdx" x
    = Float64.np_round x (Rounding.spec_decimals "AvgSalesPriceIdx") ∧
  Rounding64.page_afford_by_mncp "M2AffordedTotal" x
    = Float64.np_round x (Rounding.spec_decimals "M2AffordedTotal") ∧
  Rounding64.page_afford_by_mncp "YearsoBuy50M2Total" x
    = Float64.np_round x (Rounding.spec_decimals "YearsoBuy50M2Total") ∧
  Rounding64.page_hist_changes "AvgSalesPrice" x
    = (z ← Float64.astype_int (Float64.np_round x 0);
       Ok (Rounding64.AsInt z)) ∧
  (Float64.is_finite x = false →
   Rounding64.page_hist_changes "AvgSalesPrice" x
     = Raise IntCastingNaNError) ∧
  Rounding64.page_hist_changes "M2AffordedTotal" x
    = Ok (Rounding64.AsFloat (Float64.np_round x 1)) ∧
  Rounding64.page_hist_changes "YearsoBuy50M2Total" x
    = Ok (Rounding64.AsFloat (Float64.np_round x 1)) ∧
  Rounding64.page_annual_afford_overview x = Float64.np_round x 0.
Proof.
  split_and!; try reflexivity.
  by destruct x.
Qed.

(** * More of the code: start-up and widgets *)

Section python_facts.

Lemma foldl_max_spec (l : list Z) (x : Z) :
  foldl Z.max x l ∈ x :: l ∧ ∀ z, z ∈ x :: l → z ≤ foldl Z.max x l.
Proof.
  revert x. induction l as [|y l IH]; intros x; simpl.
  - split; [apply list_elem_of_here|]. intros z ->%list_elem_of_singleton. lia.
  - destruct (IH (Z.max x y)) as [Hin Hle]. split.
    + apply elem_of_cons in Hin as [Hin|Hin].
      * rewrite Hin. destruct (Z.max_spec x y) as [[_ ->]|[_ ->]].
        -- apply list_elem_of_further, list_elem_of_here.
        -- apply list_elem_of_here.
      * by do 2 apply list_elem_of_further.
    + intros z Hz. apply elem_of_cons in Hz as [->|Hz].
      * specialize (Hle (Z.max x y) (list_elem_of_here _ _)). lia.
      * apply elem_of_cons in Hz as [->|Hz].
        -- specialize (Hle (Z.max x y) (list_elem_of_here _ _)). lia.
        -- apply Hle. by apply list_elem_of_further.
Qed.

Lemma foldl_min_spec (l : list Z) (x : Z) :
  foldl Z.min x l ∈ x :: l ∧ ∀ z, z ∈ x :: l → foldl Z.min x l ≤ z.
Proof.
  revert x. induction l as [|y l IH]; intros x; simpl.
  - split; [apply list_elem_of_here|]. intros z ->%list_elem_of_singleton. lia.
  - destruct (IH (Z.min x y)) as [Hin Hle]. split.
    + apply elem_of_cons in Hin as [Hin|Hin].
      * rewrite Hin. destruct (Z.min_spec x y) as [[_ ->]|[_ ->]].
        -- apply list_elem_of_here.
        -- apply list_elem_of_further, list_elem_of_here.
      * by do 2 apply list_elem_of_further.
    + intros z Hz. apply elem_of_cons in Hz as [->|Hz].
      * specialize (Hle (Z.min x y) (list_elem_of_here _ _)). lia.
      * apply elem_of_cons in Hz as [->|Hz].
        -- specialize (Hle (Z.min x y) (list_elem_of_here _ _)). lia.
        -- apply Hle. by apply list_elem_of_further.
Qed.

Lemma np_max_Ok (l : list Z) :
  l ≠ [] →
  ∃ m, Python.np_max l = Ok m ∧ m ∈ l ∧ ∀ z, z ∈ l → z ≤ m.
Proof.
  destruct l as [|x l]; [done|]. intros _. eexists. split; [done|].
  apply foldl_max_spec.
Qed.

Lemma np_min_Ok (l : list Z) :
  l ≠ [] →
  ∃ m, Python.np_min l = Ok m ∧ m ∈ l ∧ ∀ z, z ∈ l → m ≤ z.
Proof.
  destruct l as [|x l]; [done|]. intros _. eexists. split; [done|].
  apply foldl_min_spec.
Qed.

(** [index] finds the first position of a member. *)
Lemma index_Ok_1 (x : Z) (l : list Z) (i : nat) :
  Python.index x l = Ok i →
  l !! i = Some x ∧ ∀ j, (j < i)%nat → l !! j ≠ Some x.
Proof.
  revert i. induction l as [|y l IH]; intros i; simpl; [done|].
  case_decide as Hy.
  - subst y. intros [= <-]. split; [done|]. intros j ?; lia.
  - destruct (Python.index x l) as [k|e]; [|done].
    intros [= <-]. destruct (IH k eq_refl) as [Hk Hfirst]. split; [done|].
    intros [|j] Hj; simpl; [congruence|]. apply Hfirst. lia.
Qed.

Lemma index_Ok_2 (x : Z) (l : list Z) (i : nat) :
  l !! i = Some x → (∀ j, (j < i)%nat → l !! j ≠ Some x) →
  Python.index x l = Ok i.
Proof.
  revert i. induction l as [|y l IH]; intros i Hi Hfirst; [done|].
  simpl. case_decide as Hy.
  - subst y. destruct i as [|i]; [done|].
    exfalso. apply (Hfirst 0%nat); [lia|done].
  - destruct i as [|i]; simpl in Hi; [congruence|].
    rewrite (IH i); [done|done|].
    intros j Hj. apply (Hfirst (S j)). lia.
Qed.

Lemma index_Raise (x : Z) (l : list Z) (e : exn) :
  Python.index x l = Raise e → (x ∉ l) ∧ e = ValueError.
Proof.
  induction l as [|y l IH]; simpl.
  - intros [= <-]. split; [apply not_elem_of_nil|done].
  - case_decide as Hy; [done|].
    destruct (Python.index x l) as [k|e']; [done|].
    intros [= <-]. destruct (IH eq_refl) as [Hx ->]. split; [|done].
    intros [?|?]%elem_of_cons; [congruence|done].
Qed.

Lemma index_not_member (x : Z) (l : list Z) :
  x ∉ l → Python.index x l = Raise ValueError.
Proof.
  intros Hx. destruct (Python.index x l) as [i|e] eqn:Hi.
  - apply index_Ok_1 in Hi as [Hi _]. exfalso. apply Hx.
    by eapply list_elem_of_lookup_2.
  - by apply index_Raise in Hi as [_ ->].
Qed.

Lemma index_member (x : Z) (l : list Z) :
  x ∈ l → ∃ i, Python.index x l = Ok i.
Proof.
  intros Hx. destruct (Python.index x l) as [i|e] eqn:Hi; [eauto|].
  apply index_Raise in Hi as [Hn _]. done.
Qed.

End python_facts.

Section startup_facts.
Import Recency.

(** The first year of a list sorted from the latest down is its maximum. *)
Lemma sorted_head_max (l : list Z) (h : Z) :
  StronglySorted Z.ge l → head l = Some h → ∀ z, z ∈ l → z ≤ h.
Proof.
  intros Hs Hh z Hz. destruct l as [|x l]; [done|]. simpl in Hh. simplify_eq.
  apply elem_of_cons in Hz as [->|Hz]; [lia|].
  inversion_clear Hs as [|?? _ Hall].
  rewrite list.Forall_forall in Hall. specialize (Hall z Hz). lia.
Qed.

Lemma historical_years_alt (df : DataFrame) (y : Z) :
  y ∈ historical_years df ↔
  y ∈ Year <$> filter (λ r, PriceType r ≠ "Predicted price") df.
Proof. unfold historical_years. apply elem_of_unique. Qed.

Lemma filter_all {A : Type} (P : A → Prop) `{!∀ x, Decision (P x)}
    (l : list A) :
  Forall P l → filter P l = l.
Proof.
  induction 1 as [|x l Hx _ IH]; [done|].
  by rewrite filter_cons_True, IH.
Qed.

(** Every row has a rank between 0 and the number of historical years. *)
Lemma Recency_bounds (df : DataFrame) (y : Z) :
  0 ≤ Recency (annual_recency df) y ≤ n_years df.
Proof.
  destruct (decide (y ∈ historical_years df)) as [Hy|Hy].
  - destruct (historical_position df y Hy) as [i Hi].
    rewrite (Recency_position df i y Hi).
    apply lookup_lt_Some in Hi. rewrite length_unique_years in Hi.
    unfold n_years. lia.
  - rewrite Recency_outside by done. unfold n_years. lia.
Qed.

(** A rank stored in the map is one more than the position of its year. *)
Lemma annual_recency_Some_inv (df : DataFrame) (y k : Z) :
  annual_recency df !! y = Some k →
  ∃ i, unique_years df !! i = Some y ∧ k = 1 + Z.of_nat i.
Proof.
  intros Hk. destruct (decide (y ∈ historical_years df)) as [Hy|Hy].
  - destruct (historical_position df y Hy) as [i Hi]. exists i. split; [done|].
    rewrite (annual_recency_lookup df i y Hi) in Hk. congruence.
  - by rewrite annual_recency_None in Hk.
Qed.

(** Every rank from 1 to the number of historical years is stored. *)
Lemma annual_recency_rank (df : DataFrame) (k : Z) :
  1 ≤ k ≤ n_years df →
  ∃ y, annual_recency df !! y = Some k.
Proof.
  intros Hk. unfold n_years in Hk.
  destruct (lookup_lt_is_Some_2 (unique_years df) (Z.to_nat (k - 1)))
    as [y Hy]; [rewrite length_unique_years; lia|].
  exists y. rewrite (annual_recency_lookup df _ y Hy). f_equal. lia.
Qed.

End startup_facts.

(** X1. The two ways the start-up code finds the last historical year
    agree: the maximum year of the rows that are not predictions (line 46)
    is the first entry of the sorted list of historical years (line 127),
    and both are missing when every row is a prediction. *)
Theorem last_historical_year_agree (df : DataFrame) :
  Widgets.last_historical_year df = Recency.last_hist_year df.
Proof.
  unfold Widgets.last_historical_year, Recency.last_hist_year.
  destruct (Year <$> filter (λ r, PriceType r ≠ "Predicted price") df)
    as [|y ys] eqn:Hys.
  - assert (Recency.unique_years df = []) as ->; [|done].
    apply Permutation_nil_r. rewrite unique_years_perm.
    unfold Recency.historical_years. by rewrite Hys.
  - destruct (foldl_max_spec ys y) as [Hin Hmax].
    set (m := foldl Z.max y ys) in *.
    assert (Hm : m ∈ Recency.unique_years df).
    { apply elem_of_unique_years, historical_years_alt. by rewrite Hys. }
    destruct (Recency.unique_years df) as [|h l] eqn:HL.
    { by apply elem_of_nil in Hm. }
    simpl. f_equal.
    assert (Hh : h ∈ Recency.unique_years df) by (rewrite HL; apply list_elem_of_here).
    assert (h ≤ m).
    { apply Hmax. rewrite <- Hys. by apply historical_years_alt, elem_of_unique_years. }
    assert (m ≤ h); [|lia].
    apply (sorted_head_max (h :: l)); [|done|done].
    rewrite <- HL. apply unique_years_sorted.
Qed.

(** X2. The recency map is a bijection between the historical years and
    the ranks 1..n: its keys are the historical years, every value is a
    rank between 1 and n, and every such rank is the rank of exactly one
    year. *)
Theorem annual_recency_bijection (df : DataFrame) :
  let m := Recency.annual_recency df in
  (∀ y, is_Some (m !! y) ↔ y ∈ Recency.historical_years df) ∧
  (∀ y k, m !! y = Some k → 1 ≤ k ≤ Recency.n_years df) ∧
  (∀ k, 1 ≤ k ≤ Recency.n_years df →
        ∃ y, m !! y = Some k ∧ ∀ y', m !! y' = Some k → y' = y) ∧
  size m = length (Recency.historical_years df).
Proof.
  intros m.
  assert (Hkey : ∀ y k, m !! y = Some k →
            ∃ i, Recency.unique_years df !! i = Some y ∧ k = 1 + Z.of_nat i)
    by apply annual_recency_Some_inv.
  assert (Hdom : ∀ y, is_Some (m !! y) ↔ y ∈ Recency.historical_years df).
  { intros y. split.
    - intros [k Hk]. destruct (Hkey y k Hk) as (i & Hi & _).
      apply elem_of_unique_years. by eapply list_elem_of_lookup_2.
    - intros Hy. destruct (historical_position df y Hy) as [i Hi].
      unfold m. rewrite (annual_recency_lookup df i y Hi). eauto. }
  split_and!; [done|..].
  - intros y k Hk. destruct (Hkey y k Hk) as (i & Hi & ->).
    apply lookup_lt_Some in Hi. rewrite length_unique_years in Hi.
    unfold Recency.n_years. lia.
  - intros k Hk. destruct (annual_recency_rank df k Hk) as [y Hy].
    exists y. split; [done|].
    intros y' Hk'. destruct (Hkey y' k Hk') as (i' & Hi' & Hki').
    destruct (Hkey y k Hy) as (i & Hi & Hki).
    assert (i' = i) as -> by lia. congruence.
  - rewrite <- length_unique_years.
    assert (dom m = list_to_set (Recency.unique_years df) :> gset Z) as Hd.
    { apply set_eq. intros y. rewrite elem_of_dom, Hdom, elem_of_list_to_set.
      by rewrite elem_of_unique_years. }
    rewrite <- size_dom, Hd. apply size_list_to_set, NoDup_unique_years.
Qed.

(** X3. The slider of [filter_by_year] starts at the number of historical
    years, and with that value the recency step keeps every row of the
    frame; with no historical year the widget raises [ValueError]. *)
Theorem slider_default_shows_all (df : DataFrame) :
  let m := Recency.annual_recency df in
  (Recency.historical_years df ≠ [] →
   Widgets.filter_by_year_default m = Ok (Recency.n_years df)) ∧
  (Recency.historical_years df = [] →
   Widgets.filter_by_year_default m = Raise ValueError) ∧
  View.recency_filter m (Recency.n_years df) df = df.
Proof.
  intros m. split_and!.
  - intros Hne. unfold Widgets.filter_by_year_default.
    assert (Hn : 1 ≤ Recency.n_years df).
    { unfold Recency.n_years.
      destruct (Recency.historical_years df); [done|simpl; lia]. }
    destruct (annual_recency_rank df (Recency.n_years df)) as [y Hy]; [lia|].
    assert (Hin : Recency.n_years df ∈ (map_to_list m).*2).
    { apply list_elem_of_fmap. exists (y, Recency.n_years df).
      split; [done|]. by apply elem_of_map_to_list. }
    destruct (np_max_Ok ((map_to_list m).*2)) as (v & -> & Hv & Hmax).
    { intros Hnil. rewrite Hnil in Hin. by apply elem_of_nil in Hin. }
    f_equal. apply list_elem_of_fmap in Hv as ([y' v'] & -> & Hv).
    apply elem_of_map_to_list in Hv. simpl.
    destruct (annual_recency_Some_inv df y' v' Hv) as (i & Hi & ->).
    specialize (Hmax _ Hin). simpl in Hmax. apply lookup_lt_Some in Hi.
    rewrite length_unique_years in Hi. unfold Recency.n_years in *. lia.
  - intros Hnil. unfold Widgets.filter_by_year_default.
    assert (m = ∅) as ->; [|by rewrite map_to_list_empty].
    apply map_empty. intros y. unfold m. apply annual_recency_None.
    rewrite Hnil. apply not_elem_of_nil.
  - apply filter_all, list.Forall_forall. intros r _. apply Recency_bounds.
Qed.

Lemma slider_default_shows_all_witness :
  Widgets.filter_by_year_default (Recency.annual_recency Sample.ten_years)
    = Ok 10 ∧
  View.recency_filter (Recency.annual_recency Sample.ten_years) 10
    Sample.ten_years = Sample.ten_years.
Proof.
  destruct (slider_default_shows_all Sample.ten_years) as (Hd & _ & Hall).
  split; [apply Hd; by vm_compute|exact Hall].
Defined.

Lemma filter_sublist_weaken {A : Type} (P Q : A → Prop)
    `{!∀ x, Decision (P x)} `{!∀ x, Decision (Q x)} (l : list A) :
  (∀ x, P x → Q x) → filter P l `sublist_of` filter Q l.
Proof.
  intros HPQ. induction l as [|x l IH]; [done|].
  rewrite !(filter_cons _ x). destruct (decide (P x)) as [HP|HP].
  - rewrite decide_True by auto. by constructor.
  - destruct (decide (Q x)); [by constructor|done].
Qed.

Lemma filter_sublist_mono {A : Type} (P : A → Prop)
    `{!∀ x, Decision (P x)} (l1 l2 : list A) :
  l1 `sublist_of` l2 → filter P l1 `sublist_of` filter P l2.
Proof.
  induction 1 as [|x l1 l2 _ IH|x l1 l2 _ IH]; [done|..].
  - rewrite !(filter_cons _ x). destruct (decide (P x)); [by constructor|done].
  - rewrite (filter_cons _ x). destruct (decide (P x)); [by constructor|done].
Qed.

(** X4. Widening the window never removes a row: the view for a smaller
    number of years is a sublist of the view for a larger one. *)
Theorem view_monotone_in_years (m : gmap Z Z) (df : DataFrame) (n n' : Z)
    (selected_locations price_types : list string) :
  n ≤ n' →
  View.data_to_display m df n selected_locations price_types
    `sublist_of` View.data_to_display m df n' selected_locations price_types.
Proof.
  intros Hn. unfold View.data_to_display, View.recency_filter.
  do 2 apply filter_sublist_mono.
  apply filter_sublist_weaken. intros r ?. lia.
Qed.

Lemma view_monotone_in_years_witness :
  View.data_to_display (Recency.annual_recency Sample.ten_years)
    Sample.ten_years 3 ["Odense"] Sample.incl_estimates
  `sublist_of`
  View.data_to_display (Recency.annual_recency Sample.ten_years)
    Sample.ten_years 8 ["Odense"] Sample.incl_estimates.
Proof.
  apply (view_monotone_in_years (Recency.annual_recency Sample.ten_years)
           Sample.ten_years 3 8 ["Odense"] Sample.incl_estimates).
  lia.
Defined.

Lemma elem_of_all_years (hist_years future_years : list Z) (y : Z) :
  y ∈ Widgets.all_years hist_years future_years ↔
  y ∈ hist_years ∨ y ∈ future_years.
Proof.
  unfold Widgets.all_years, Python.sort.
  by rewrite merge_sort_Permutation, elem_of_app.
Qed.

(** X5. With at least one historical year, the base-year select box starts
    at the earliest historical year and the reference-year select box at
    the latest one, whatever future years are offered; the two defaults are
    the same year exactly when there is a single historical year.  With no
    historical year both widgets raise [ValueError]. *)
Theorem year_select_defaults (hist_years future_years : list Z) :
  let all_years := Widgets.all_years hist_years future_years in
  (hist_years ≠ [] →
   ∃ (ib ir : nat) (b rf : Z),
     Widgets.filter_by_year_base_index hist_years future_years = Ok ib ∧
     Widgets.filter_by_year_ref_index hist_years future_years = Ok ir ∧
     all_years !! ib = Some b ∧ all_years !! ir = Some rf ∧
     b ∈ hist_years ∧ rf ∈ hist_years ∧
     (∀ y, y ∈ hist_years → b ≤ y ≤ rf) ∧
     (b = rf ↔ ∀ y, y ∈ hist_years → y = b)) ∧
  (hist_years = [] →
   Widgets.filter_by_year_base_index hist_years future_years
     = Raise ValueError ∧
   Widgets.filter_by_year_ref_index hist_years future_years
     = Raise ValueError).
Proof.
  intros all_years. split.
  - intros Hne.
    destruct (np_min_Ok hist_years Hne) as (b & Hb & Hbin & Hbmin).
    destruct (np_max_Ok hist_years Hne) as (rf & Hrf & Hrin & Hrmax).
    destruct (index_member b all_years) as [ib Hib].
    { apply elem_of_all_years. by left. }
    destruct (index_member rf all_years) as [ir Hir].
    { apply elem_of_all_years. by left. }
    exists ib, ir, b, rf.
    unfold Widgets.filter_by_year_base_index, Widgets.filter_by_year_ref_index.
    rewrite Hb, Hrf. simpl. fold all_years. rewrite Hib, Hir.
    apply index_Ok_1 in Hib as [Hib _]. apply index_Ok_1 in Hir as [Hir _].
    split_and!; try done.
    + intros y Hy. split; [by apply Hbmin|by apply Hrmax].
    + split.
      * intros ->. intros y Hy.
        specialize (Hbmin y Hy). specialize (Hrmax y Hy). lia.
      * intros Hall. symmetry. by apply Hall.
  - intros ->. done.
Qed.

Lemma year_select_defaults_witness :
  ∃ (ib ir : nat),
    Widgets.filter_by_year_base_index [2019; 2018; 2017] [2020; 2021] = Ok ib ∧
    Widgets.filter_by_year_ref_index [2019; 2018; 2017] [2020; 2021] = Ok ir.
Proof.
  destruct (year_select_defaults [2019; 2018; 2017] [2020; 2021])
    as [Hdef _].
  destruct Hdef as (ib & ir & b & rf & Hb & Hr & _); [done|].
  by exists ib, ir.
Defined.

Example year_select_defaults_sample :
  Widgets.filter_by_year_base_index [2019; 2018; 2017] [2020; 2021] = Ok 0%nat ∧
  Widgets.filter_by_year_ref_index [2019; 2018; 2017] [2020; 2021] = Ok 2%nat ∧
  Widgets.all_years [2019; 2018; 2017] [2020; 2021]
    = [2017; 2018; 2019; 2020; 2021].
Proof. split_and!; by vm_compute. Qed.

(** X6. The select box for the number of municipalities can start at
    [default_number] exactly when that number is between 1 and the number
    of municipalities offered; otherwise [filter_by_n_mncp] raises
    [ValueError]. *)
Theorem n_mncp_default (list_of_municipalities : list string)
    (default_number : Z) :
  let len := Z.of_nat (length list_of_municipalities) in
  (1 ≤ default_number ≤ len →
   Widgets.filter_by_n_mncp_index list_of_municipalities default_number
     = Ok (Z.to_nat (default_number - 1)) ∧
   Widgets.possible_numbers list_of_municipalities
     !! Z.to_nat (default_number - 1) = Some default_number) ∧
  (¬ 1 ≤ default_number ≤ len →
   Widgets.filter_by_n_mncp_index list_of_municipalities default_number
     = Raise ValueError).
Proof.
  intros len. unfold Widgets.filter_by_n_mncp_index, Widgets.possible_numbers,
    Recency.arange. fold len.
  replace (len + 1 - 1) with len by lia. split.
  - intros Hd.
    assert (Hl : seqZ 1 len !! Z.to_nat (default_number - 1)
                 = Some default_number).
    { apply lookup_seqZ. split; lia. }
    split; [|done]. apply index_Ok_2; [done|].
    intros j Hj Hjl. apply lookup_seqZ in Hjl as [Hjl _]. lia.
  - intros Hd. apply index_not_member.
    intros (j & Hj)%list_elem_of_lookup_1. apply lookup_seqZ in Hj. lia.
Qed.

Lemma n_mncp_default_witness :
  Widgets.filter_by_n_mncp_index ["Aarhus"; "Odense"; "National average"] 10
    = Raise ValueError ∧
  Widgets.filter_by_n_mncp_index ["Aarhus"; "Odense"; "National average"] 2
    = Ok 1%nat.
Proof.
  destruct (n_mncp_default ["Aarhus"; "Odense"; "National average"] 10)
    as [_ Hbad].
  destruct (n_mncp_default ["Aarhus"; "Odense"; "National average"] 2)
    as [Hok _].
  split; [apply Hbad; simpl; lia|apply Hok; simpl; lia].
Defined.

(** X7. The year select box of the overview pages starts at the last
    historical year when a row of that year has a national disposable
    income; when no row of that year has one, or when there is no
    historical row at all, [filter_by_specific_year] raises
    [ValueError]. *)
Theorem specific_year_default (df : DataFrame) :
  let possible_years := Widgets.possible_years df in
  (∀ y, Widgets.last_historical_year df = Some y →
        (∃ r, r ∈ df ∧ Year r = y
              ∧ cell r "NationalDisposableTotalAvg" ≠ NaN) →
        ∃ i, Widgets.filter_by_specific_year_index possible_years (Some y)
               = Ok i ∧
             possible_years !! i = Some y) ∧
  (∀ y, Widgets.last_historical_year df = Some y →
        (∀ r, r ∈ df → Year r = y →
              cell r "NationalDisposableTotalAvg" = NaN) →
        Widgets.filter_by_specific_year_index possible_years (Some y)
          = Raise ValueError) ∧
  (Widgets.last_historical_year df = None →
   Widgets.filter_by_specific_year_index possible_years
     (Widgets.last_historical_year df) = Raise ValueError).
Proof.
  intros possible_years.
  assert (Hin : ∀ y, y ∈ possible_years ↔
            ∃ r, r ∈ df ∧ Year r = y
                 ∧ cell r "NationalDisposableTotalAvg" ≠ NaN).
  { intros y. unfold possible_years, Widgets.possible_years,
      Recency.sort_reverse.
    rewrite merge_sort_Permutation, elem_of_unique, list_elem_of_fmap.
    split.
    - intros (r & -> & Hr). apply list_elem_of_filter in Hr as [? ?]. eauto.
    - intros (r & ? & <- & ?). exists r. split; [done|].
      by apply list_elem_of_filter. }
  split_and!.
  - intros y _ Hy. simpl.
    destruct (index_member y possible_years) as [i Hi]; [by apply Hin|].
    exists i. split; [done|]. by apply index_Ok_1 in Hi as [? _].
  - intros y _ Hy. simpl. apply index_not_member.
    intros (r & Hr & Hyr & Hc)%Hin. by apply Hc, Hy.
  - by intros ->.
Qed.

Lemma specific_year_default_witness :
  ∃ i, Widgets.filter_by_specific_year_index
         (Widgets.possible_years Sample.ten_years) (Some 2019) = Ok i.
Proof.
  destruct (specific_year_default Sample.ten_years) as [Hok _].
  destruct (Hok 2019) as (i & Hi & _).
  - by vm_compute.
  - exists (Sample.row 2019 "Odense" "Actual price" 19).
    split; [|done]. unfold Sample.ten_years.
    do 9 apply list_elem_of_further. apply list_elem_of_here.
  - by exists i.
Defined.

(** * More of the code: the historical-changes page *)

Section hist_page_facts.
Import HistChanges.

Lemma pivot_Raise (d : DataFrame) (col : string) (e : exn) :
  pivot d col = Raise e → ¬ NoDup (key <$> d) ∧ e = ValueError.
Proof. unfold pivot. case_decide; [done|]. by intros [= <-]. Qed.

Lemma NoDup_index (d : DataFrame) (col : string) (p : Pivoted) :
  pivot d col = Ok p → NoDup (index p).
Proof.
  intros [_ ->]%pivot_inv. simpl.
  rewrite merge_sort_Permutation. apply NoDup_remove_dups.
Qed.

Lemma municipalities_index (p : Pivoted) (b rf : Z) :
  c_municipality
    <$> ((λ m, mkChangeRow m (at_ p m b) (at_ p m rf)
                 (pct_change (at_ p m b) (at_ p m rf))) <$> index p)
  = index p.
Proof.
  rewrite <- list_fmap_compose.
  rewrite <- (list_fmap_id (index p)) at 2. by apply list_fmap_ext.
Qed.

#[local] Instance Zle_antisymm : AntiSymm eq Z.le.
Proof. intros x y. lia. Qed.

(** A sorted list without repetitions whose members are [x] and [y]. *)
Lemma sorted_pair (l : list Z) (x y : Z) :
  StronglySorted Z.le l → NoDup l → x < y →
  (∀ z, z ∈ l ↔ z = x ∨ z = y) → l = [x; y].
Proof.
  intros Hs Hnd Hxy Hin.
  apply (StronglySorted_unique Z.le); [done| |].
  - repeat constructor. lia.
  - apply NoDup_Permutation; [done| |].
    + repeat constructor; rewrite ?elem_of_cons, ?elem_of_nil; lia.
    + intros z. rewrite Hin, !elem_of_cons, elem_of_nil. tauto.
Qed.

End hist_page_facts.

(** X8. The three outcomes of the pivot and percent change.  It returns a
    table exactly when no municipality has two selected rows of one year
    and each of the two years has a selected row; two rows of one
    municipality and year make it raise [ValueError]; otherwise a year
    without any selected row makes it raise [KeyError]. *)
Theorem pivot_and_change_outcome (df : DataFrame) (price_types : list string)
    (base_year ref_year : Z) (metric_for_use : string) :
  let d := HistChanges.selected df price_types base_year ref_year in
  let run := HistChanges.pivot_and_change df price_types base_year ref_year
               metric_for_use in
  ((∃ t, run = Ok t) ↔
   NoDup (HistChanges.key <$> d) ∧
   base_year ∈ Year <$> d ∧ ref_year ∈ Year <$> d) ∧
  (run = Raise ValueError ↔ ¬ NoDup (HistChanges.key <$> d)) ∧
  (run = Raise KeyError ↔
   NoDup (HistChanges.key <$> d) ∧
   (base_year ∉ Year <$> d ∨ ref_year ∉ Year <$> d)).
Proof.
  intros d run.
  assert (Hyear : ∀ y, y ∈ Year <$> d ↔ ∃ r, r ∈ d ∧ Year r = y).
  { intros y. rewrite list_elem_of_fmap. split.
    - intros (r & -> & ?). eauto.
    - intros (r & ? & <-). eauto. }
  destruct (decide (NoDup (HistChanges.key <$> d))) as [Hnd|Hnd].
  - assert (Hp := pivot_Ok d metric_for_use Hnd).
    assert (Hcol : ∀ y, y ∈ HistChanges.columns
                      {| HistChanges.columns :=
                           merge_sort Z.le (remove_dups (Year <$> d));
                         HistChanges.index :=
                           merge_sort String.le
                             (remove_dups (Municipality <$> d));
                         HistChanges.values :=
                           list_to_map
                             ((λ r, (HistChanges.key r, cell r metric_for_use))
                                <$> d) |}
                    ↔ y ∈ Year <$> d).
    { intros y. rewrite Hyear. apply (elem_of_columns _ _ _ _ Hp). }
    unfold run, HistChanges.pivot_and_change.
    fold (HistChanges.selected df price_types base_year ref_year). fold d. rewrite Hp. simpl.
    unfold HistChanges.has_column.
    destruct (decide (ref_year ∈ _)) as [Hr|Hr]; simpl;
      [destruct (decide (base_year ∈ _)) as [Hb|Hb]; simpl|].
    + apply Hcol in Hr, Hb. split_and!.
      * split; [done|eauto].
      * split; [done|tauto].
      * split; [done|]. intros (_ & [?|?]); done.
    + rewrite Hcol in Hr, Hb. split_and!.
      * split; [by intros [? ?]|tauto].
      * split; [done|tauto].
      * split; [tauto|done].
    + rewrite Hcol in Hr. split_and!.
      * split; [by intros [? ?]|tauto].
      * split; [done|tauto].
      * split; [tauto|done].
  - unfold run, HistChanges.pivot_and_change.
    fold (HistChanges.selected df price_types base_year ref_year). fold d.
    unfold HistChanges.pivot. rewrite decide_False by done. simpl. split_and!.
    + split; [by intros [? ?]|tauto].
    + done.
    + split; [done|tauto].
Qed.

Lemma pivot_and_change_outcome_witness :
  HistChanges.pivot_and_change Sample.two_years Sample.incl_estimates
    2000 2021 "AvgSalesPrice" = Raise KeyError.
Proof.
  destruct (pivot_and_change_outcome Sample.two_years Sample.incl_estimates
              2000 2021 "AvgSalesPrice") as (_ & _ & Hkey).
  apply Hkey. split; [by_evaluation|]. right. by_evaluation.
Defined.

(** X9. The shape of the table.  Every municipality has one row, the
    municipalities come in alphabetical order, and the year columns come in
    calendar order whichever of the two is the base year: one column when
    base and reference year are the same, else the earlier year first. *)
Theorem change_table_shape (df : DataFrame) (price_types : list string)
    (base_year ref_year : Z) (metric_for_use : string)
    (t : HistChanges.ChangeTable) :
  HistChanges.pivot_and_change df price_types base_year ref_year
    metric_for_use = Ok t →
  NoDup (HistChanges.municipalities t) ∧
  StronglySorted String.le (HistChanges.municipalities t) ∧
  HistChanges.t_years t =
    (if decide (base_year = ref_year) then [base_year]
     else [Z.min base_year ref_year; Z.max base_year ref_year]).
Proof.
  intros Ht.
  destruct (pivot_and_change_inv _ _ _ _ _ _ Ht) as (p & Hp & Hr & Hb & ->).
  unfold HistChanges.municipalities. simpl.
  rewrite municipalities_index. split_and!.
  - by eapply NoDup_index.
  - destruct (pivot_inv _ _ _ Hp) as [_ ->]. simpl.
    apply (StronglySorted_merge_sort String.le).
  - assert (Hin : ∀ z, z ∈ HistChanges.columns p ↔ z = base_year ∨ z = ref_year).
    { intros z. split.
      - intros (r & Hr' & <-)%(elem_of_columns _ _ _ _ Hp).
        apply elem_of_selected in Hr'. tauto.
      - by intros [->| ->]. }
    assert (Hs : StronglySorted Z.le (HistChanges.columns p)).
    { destruct (pivot_inv _ _ _ Hp) as [_ ->]. simpl.
      apply (StronglySorted_merge_sort Z.le). }
    assert (Hnd : NoDup (HistChanges.columns p)).
    { destruct (pivot_inv _ _ _ Hp) as [_ ->]. simpl.
      rewrite merge_sort_Permutation. apply NoDup_remove_dups. }
    case_decide as Heq.
    + subst ref_year. apply NoDup_constant; [done| |].
      * intros Hnil. rewrite Hnil in Hb. by apply elem_of_nil in Hb.
      * intros z Hz. apply Hin in Hz. tauto.
    + apply sorted_pair; [done|done|lia|].
      intros z. rewrite Hin. lia.
Qed.

Lemma change_table_shape_witness :
  ∃ t,
    HistChanges.pivot_and_change Sample.two_years Sample.incl_estimates
      2020 2000 "AvgSalesPrice" = Ok t ∧
    HistChanges.t_years t = [2000; 2020].
Proof.
  eexists. split; [by vm_compute|].
  eapply (change_table_shape Sample.two_years Sample.incl_estimates
            2020 2000 "AvgSalesPrice"). by vm_compute.
Defined.

Section display_facts.
Import HistChanges.

Import HistPage.

Lemma mapM_result_Ok {A B : Type} (f : A → result B) (l : list A)
    (k : list B) :
  mapM f l = Ok k ↔ Forall2 (λ x y, f x = Ok y) l k.
Proof.
  revert k. induction l as [|x l IH]; intros k; simpl.
  - unfold mret, result_ret. split; [intros [= <-]; constructor|by inversion 1].
  - unfold mbind, result_bind, mret, result_ret. destruct (f x) as [y|e] eqn:Hx; simpl.
    + destruct (mapM f l) as [k'|e'] eqn:Hl; simpl.
      * split.
        -- intros [= <-]. constructor; [done|]. by apply IH.
        -- inversion 1 as [|???? Hy Hk]; subst. apply IH in Hk. congruence.
      * split; [done|]. inversion 1 as [|???? Hy Hk]; subst.
        apply IH in Hk. done.
    + split; [done|]. inversion 1; subst. congruence.
Qed.

(** When [f] can only raise [e], a traversal raises [e] exactly when [f]
    raises on some member. *)
Lemma mapM_result_Raise {A B : Type} (f : A → result B) (l : list A)
    (e : exn) :
  (∀ x e', f x = Raise e' → e' = e) →
  (mapM f l = Raise e ↔ ∃ x, x ∈ l ∧ f x = Raise e).
Proof.
  intros He. induction l as [|x l IH]; simpl.
  - split; [done|]. intros (x & Hx & _). by apply elem_of_nil in Hx.
  - unfold mbind, result_bind, mret, result_ret. destruct (f x) as [y|e'] eqn:Hx; simpl.
    + destruct (mapM f l) as [k'|e''] eqn:Hl; simpl.
      * split; [done|]. intros (z & [->|Hz]%elem_of_cons & Hfz); [congruence|].
        assert (Ok k' = Raise e :> result (list B)); [|done].
        apply IH. eauto.
      * split.
        -- intros [= ->]. destruct (proj1 IH eq_refl) as (z & ? & ?).
           exists z. split; [by apply list_elem_of_further|done].
        -- intros (z & [->|Hz]%elem_of_cons & Hfz); [congruence|].
           f_equal. assert (Raise e'' = Raise e :> result (list B)) as [= ->];
             [|done]. apply IH. eauto.
    + rewrite (He x e' Hx). split; [|done].
      intros _. exists x. split; [apply list_elem_of_here|].
      by rewrite Hx, (He x e' Hx).
Qed.

Lemma page_hist_changes_price (x : float) :
  (finite x → ∃ q, Rounding.page_hist_changes "AvgSalesPrice" x = Ok (Fin q)) ∧
  (¬ finite x →
   Rounding.page_hist_changes "AvgSalesPrice" x = Raise IntCastingNaNError).
Proof.
  unfold Rounding.page_hist_changes. rewrite decide_True by done. split.
  - intros [q ->]. rewrite astype_int_round_0. simpl. eauto.
  - intros Hx. destruct x as [q| | |]; try done. exfalso. apply Hx. by exists q.
Qed.

Lemma page_hist_changes_only_raises (metric_for_use : string) (x : float)
    (e : exn) :
  Rounding.page_hist_changes metric_for_use x = Raise e →
  e = IntCastingNaNError ∧ metric_for_use = "AvgSalesPrice" ∧ ¬ finite x.
Proof.
  unfold Rounding.page_hist_changes. case_decide as Hm; [|done].
  destruct x as [q| | |]; simpl; try (by intros [= <-]; split_and!;
    [done|done|intros [? ?]]).
  intros H. exfalso. destruct (proj1 (page_hist_changes_price (Fin q)))
    as [q' Hq']; [by exists q|].
  unfold Rounding.page_hist_changes in Hq'. rewrite decide_True in Hq' by done.
  simpl in Hq'. congruence.
Qed.

End display_facts.

Section display_rows.
Import HistChanges HistPage.

Lemma finite_or_not (x : float) : finite x ∨ ¬ finite x.
Proof.
  destruct x as [q| | |]; [left; by exists q|right; by intros [? ?]..].
Qed.

Lemma round_row_Ok (metric_for_use : string) (b rf col : Z)
    (c c' : ChangeRow) :
  round_row metric_for_use b rf col c = Ok c' →
  c_municipality c' = c_municipality c ∧ c_change c' = c_change c ∧
  (col ≠ b → c_base c' = c_base c) ∧ (col ≠ rf → c_ref c' = c_ref c) ∧
  (col = b → Rounding.page_hist_changes metric_for_use (c_base c)
             = Ok (c_base c')) ∧
  (col = rf → Rounding.page_hist_changes metric_for_use (c_ref c)
              = Ok (c_ref c')).
Proof.
  unfold round_row, mbind, result_bind.
  destruct (decide (col = b)) as [Hb|Hb], (decide (col = rf)) as [Hr|Hr].
  - destruct (Rounding.page_hist_changes _ (c_base c)); [|done].
    destruct (Rounding.page_hist_changes _ (c_ref c)); [|done].
    intros [= <-]. by split_and!.
  - destruct (Rounding.page_hist_changes _ (c_base c)); [|done].
    intros [= <-]. by split_and!.
  - destruct (Rounding.page_hist_changes _ (c_ref c)); [|done].
    intros [= <-]. by split_and!.
  - intros [= <-]. by split_and!.
Qed.

Lemma round_row_Raise (metric_for_use : string) (b rf col : Z)
    (c : ChangeRow) (e : exn) :
  round_row metric_for_use b rf col c = Raise e →
  e = IntCastingNaNError ∧ metric_for_use = "AvgSalesPrice" ∧
  ((col = b ∧ ¬ finite (c_base c)) ∨ (col = rf ∧ ¬ finite (c_ref c))).
Proof.
  unfold round_row, mbind, result_bind.
  destruct (decide (col = b)) as [Hb|Hb].
  - destruct (Rounding.page_hist_changes _ (c_base c)) as [x|e'] eqn:Hx.
    + destruct (decide (col = rf)) as [Hr|Hr]; [|done].
      destruct (Rounding.page_hist_changes _ (c_ref c)) as [y|e''] eqn:Hy;
        [done|].
      intros [= <-]. apply page_hist_changes_only_raises in Hy.
      destruct Hy as (-> & ? & ?). auto.
    + intros [= <-]. apply page_hist_changes_only_raises in Hx.
      destruct Hx as (-> & ? & ?). auto.
  - destruct (decide (col = rf)) as [Hr|Hr]; [|done].
    destruct (Rounding.page_hist_changes _ (c_ref c)) as [y|e''] eqn:Hy;
      [done|].
    intros [= <-]. apply page_hist_changes_only_raises in Hy.
      destruct Hy as (-> & ? & ?). auto.
Qed.

(** For the absolute price a row is rounded exactly when the cells of the
    column are numbers. *)
Lemma round_row_price (b rf col : Z) (c : ChangeRow) :
  (col = b ∧ ¬ finite (c_base c)) ∨ (col = rf ∧ ¬ finite (c_ref c)) →
  round_row "AvgSalesPrice" b rf col c = Raise IntCastingNaNError.
Proof.
  intros Hbad. destruct (round_row "AvgSalesPrice" b rf col c) as [c'|e] eqn:Hc.
  - exfalso. apply round_row_Ok in Hc as (_ & _ & _ & _ & Hb & Hr).
    destruct Hbad as [[Hcol Hbad]|[Hcol Hbad]].
    + rewrite (proj2 (page_hist_changes_price _) Hbad) in Hb. by specialize (Hb Hcol).
    + rewrite (proj2 (page_hist_changes_price _) Hbad) in Hr. by specialize (Hr Hcol).
  - by apply round_row_Raise in Hc as [-> _].
Qed.

Lemma round_row_price_finite (b rf col : Z) (c c' : ChangeRow) :
  round_row "AvgSalesPrice" b rf col c = Ok c' →
  (finite (c_base c') ↔ finite (c_base c)) ∧
  (finite (c_ref c') ↔ finite (c_ref c)).
Proof.
  intros Hc. apply round_row_Ok in Hc as (_ & _ & Hb' & Hr' & Hb & Hr).
  assert (Hfin : ∀ x y, Rounding.page_hist_changes "AvgSalesPrice" x = Ok y →
                        finite x ∧ finite y).
  { intros x y Hxy. destruct (finite_or_not x) as [Hx|Hx].
    - destruct (proj1 (page_hist_changes_price x) Hx) as [q Hq].
      split; [done|]. exists q. congruence.
    - rewrite (proj2 (page_hist_changes_price x) Hx) in Hxy. done. }
  split.
  - destruct (decide (col = b)) as [Hcol|Hcol].
    + destruct (Hfin _ _ (Hb Hcol)). tauto.
    + by rewrite Hb'.
  - destruct (decide (col = rf)) as [Hcol|Hcol].
    + destruct (Hfin _ _ (Hr Hcol)). tauto.
    + by rewrite Hr'.
Qed.

End display_rows.

Section display_table.
Import HistChanges HistPage.

(** A rounded column keeps the municipalities and the changes, row by
    row. *)
Lemma round_year_column_Ok (metric_for_use : string) (b rf col : Z)
    (rows rows' : list ChangeRow) :
  round_year_column metric_for_use b rf col rows = Ok rows' →
  c_municipality <$> rows' = c_municipality <$> rows ∧
  c_change <$> rows' = c_change <$> rows ∧
  Forall2 (λ c c', round_row metric_for_use b rf col c = Ok c') rows rows'.
Proof.
  unfold round_year_column. intros H%mapM_result_Ok. split_and!; [| |done].
  - induction H as [|c c' l l' Hc _ IH]; [done|].
    apply round_row_Ok in Hc as (Hm & _). rewrite !fmap_cons. by f_equal.
  - induction H as [|c c' l l' Hc _ IH]; [done|].
    apply round_row_Ok in Hc as (_ & Hch & _). rewrite !fmap_cons. by f_equal.
Qed.

Lemma round_year_column_Raise (metric_for_use : string) (b rf col : Z)
    (rows : list ChangeRow) (e : exn) :
  round_year_column metric_for_use b rf col rows = Raise e →
  e = IntCastingNaNError ∧
  ∃ c, c ∈ rows ∧
       round_row metric_for_use b rf col c = Raise IntCastingNaNError.
Proof.
  unfold round_year_column. intros H.
  assert (∀ (c : ChangeRow) e',
            round_row metric_for_use b rf col c = Raise e' →
            e' = IntCastingNaNError) as Honly.
  { intros c e' Hc. by apply round_row_Raise in Hc as [-> _]. }
  assert (e = IntCastingNaNError) as ->.
  { clear -H Honly. induction rows as [|c rows IH]; [done|].
    simpl in H. unfold mbind, result_bind, mret, result_ret in H.
    destruct (round_row _ _ _ _ c) as [c'|e'] eqn:Hc.
    - destruct (mapM _ rows) as [k|e'']; [done|].
      injection H as <-. by apply IH.
    - injection H as <-. by eapply Honly. }
  split; [done|]. by apply (mapM_result_Raise _ _ _ Honly).
Qed.

(** A cell that is not a number in one of the two year columns makes the
    rounding of the absolute price raise. *)
Lemma round_for_display_price_raises (b rf : Z) (t : ChangeTable)
    (c : ChangeRow) :
  c ∈ t_rows t → ¬ finite (c_base c) ∨ ¬ finite (c_ref c) →
  round_for_display "AvgSalesPrice" b rf t = Raise IntCastingNaNError.
Proof.
  intros Hc Hbad. unfold round_for_display, mbind, result_bind.
  destruct (round_year_column "AvgSalesPrice" b rf b (t_rows t))
    as [rows1|e1] eqn:H1.
  - destruct (round_year_column_Ok _ _ _ _ _ _ H1) as (_ & _ & Hf1).
    apply list_elem_of_lookup_1 in Hc as [i Hi].
    destruct (Forall2_lookup_l _ _ _ _ _ Hf1 Hi) as (c1 & Hi1 & Hr1).
    destruct (round_row_price_finite _ _ _ _ _ Hr1) as [Hb1 Hrf1].
    destruct Hbad as [Hbad|Hbad].
    { rewrite (round_row_price b rf b c) in Hr1; [done|]. by left. }
    destruct (round_year_column "AvgSalesPrice" b rf rf rows1)
      as [rows2|e2] eqn:H2.
    + destruct (round_year_column_Ok _ _ _ _ _ _ H2) as (_ & _ & Hf2).
      destruct (Forall2_lookup_l _ _ _ _ _ Hf2 Hi1) as (c2 & Hi2 & Hr2).
      rewrite (round_row_price b rf rf c1) in Hr2; [done|].
      right. split; [done|]. by rewrite Hrf1.
    + by destruct (round_year_column_Raise _ _ _ _ _ _ H2) as (-> & _).
  - by destruct (round_year_column_Raise _ _ _ _ _ _ H1) as (-> & _).
Qed.

End display_table.

(** X10. The rounding of the two year columns for display.  For a metric
    other than the absolute price it always succeeds.  For the absolute
    price it raises [IntCastingNaNError] exactly when some row has a cell
    of the two year columns that is not a number.  It raises nothing else,
    and when it succeeds the year columns, the municipalities and the
    [% change] column are as before. *)
Theorem display_rounding (metric_for_use : string) (base_year ref_year : Z)
    (t : HistChanges.ChangeTable) :
  let run := HistPage.round_for_display metric_for_use base_year ref_year t in
  (metric_for_use ≠ "AvgSalesPrice" → ∃ t', run = Ok t') ∧
  (metric_for_use = "AvgSalesPrice" →
   (run = Raise IntCastingNaNError ↔
    ∃ c, c ∈ HistChanges.t_rows t ∧
         (¬ HistPage.finite (HistChanges.c_base c)
          ∨ ¬ HistPage.finite (HistChanges.c_ref c)))) ∧
  (∀ e, run = Raise e → e = IntCastingNaNError) ∧
  (∀ t', run = Ok t' →
         HistChanges.t_years t' = HistChanges.t_years t ∧
         HistChanges.municipalities t' = HistChanges.municipalities t ∧
         HistChanges.c_change <$> HistChanges.t_rows t'
           = HistChanges.c_change <$> HistChanges.t_rows t).
Proof.
  intros run. unfold run, HistPage.round_for_display, mbind, result_bind.
  destruct (HistPage.round_year_column metric_for_use base_year ref_year
              base_year (HistChanges.t_rows t)) as [rows1|e1] eqn:H1.
  - destruct (round_year_column_Ok _ _ _ _ _ _ H1) as (Hm1 & Hc1 & Hf1).
    destruct (HistPage.round_year_column metric_for_use base_year ref_year
                ref_year rows1) as [rows2|e2] eqn:H2.
    + destruct (round_year_column_Ok _ _ _ _ _ _ H2) as (Hm2 & Hc2 & Hf2).
      split_and!.
      * eauto.
      * intros ->. split; [done|]. intros (c & Hc & Hbad). exfalso.
        assert (Hraise := round_for_display_price_raises base_year ref_year
                            t c Hc Hbad).
        unfold HistPage.round_for_display, mbind, result_bind in Hraise.
        by rewrite H1, H2 in Hraise.
      * done.
      * intros t' [= <-]. unfold HistChanges.municipalities. simpl.
        split_and!; [done| |]; congruence.
    + destruct (round_year_column_Raise _ _ _ _ _ _ H2) as (-> & c1 & Hin1 & Hr1).
      apply round_row_Raise in Hr1 as (_ & Hmetric & Hbad1). split_and!.
      * by intros ?.
      * intros _. split; [|done]. intros _. subst metric_for_use.
        apply list_elem_of_lookup_1 in Hin1 as [i Hi1].
        destruct (Forall2_lookup_r _ _ _ _ _ Hf1 Hi1) as (c & Hi & Hr).
        exists c. split; [by eapply list_elem_of_lookup_2|].
        destruct (round_row_price_finite _ _ _ _ _ Hr) as [Hb Hrf].
        destruct Hbad1 as [[_ Hbad]|[_ Hbad]]; [left|right]; tauto.
      * by intros e [= <-].
      * done.
  - destruct (round_year_column_Raise _ _ _ _ _ _ H1) as (-> & c & Hin & Hr).
    apply round_row_Raise in Hr as (_ & Hmetric & Hbad). split_and!.
    + by intros ?.
    + intros _. split; [|done]. intros _. exists c. split; [done|].
      destruct Hbad as [[_ Hbad]|[_ Hbad]]; auto.
    + by intros e [= <-].
    + done.
Qed.

(** X11. A municipality without a row for one of the two years stops the
    page when the metric is the absolute price: its missing cell is NaN
    and the cast of the year columns to integers raises
    [IntCastingNaNError]. *)
Theorem missing_year_stops_price_table (df : DataFrame)
    (price_types : list string) (base_year ref_year : Z)
    (t : HistChanges.ChangeTable) (m : string) :
  HistChanges.pivot_and_change df price_types base_year ref_year
    "AvgSalesPrice" = Ok t →
  m ∈ HistChanges.municipalities t →
  (∀ r, r ∈ HistChanges.selected df price_types base_year ref_year →
        Municipality r = m → Year r ≠ ref_year) →
  HistPage.round_for_display "AvgSalesPrice" base_year ref_year t
    = Raise IntCastingNaNError.
Proof.
  intros Ht Hm Hno.
  destruct (pivot_and_change_inv _ _ _ _ _ _ Ht) as (p & Hp & _ & _ & ->).
  unfold HistChanges.municipalities in Hm. simpl in Hm.
  rewrite municipalities_index in Hm.
  eapply (round_for_display_price_raises base_year ref_year _
            (HistChanges.mkChangeRow m (HistChanges.at_ p m base_year)
               (HistChanges.at_ p m ref_year)
               (HistChanges.pct_change (HistChanges.at_ p m base_year)
                  (HistChanges.at_ p m ref_year)))).
  - simpl. apply list_elem_of_fmap. by exists m.
  - simpl. right. rewrite (at_missing _ _ _ m ref_year Hp Hno). by intros [? ?].
Qed.

Lemma missing_year_stops_price_table_witness :
  ∃ t,
    HistChanges.pivot_and_change Sample.two_years Sample.incl_estimates
      2000 2020 "AvgSalesPrice" = Ok t ∧
    HistPage.round_for_display "AvgSalesPrice" 2000 2020 t
      = Raise IntCastingNaNError.
Proof.
  eexists. split; [by vm_compute|].
  eapply (missing_year_stops_price_table Sample.two_years
            Sample.incl_estimates 2000 2020 _ "Odense").
  - by vm_compute.
  - by_evaluation.
  - intros r Hr Hm. apply elem_of_selected in Hr as (Hr & _ & _).
    apply list_elem_of_In in Hr. simpl in Hr.
    destruct Hr as [<-|[<-|[<-|[<-|[<-|[]]]]]]; done.
Defined.

Lemma display_rounding_witness :
  ∃ t',
    HistPage.round_for_display "M2AffordedTotal" 2000 2020
      (HistChanges.mkChangeTable [2000; 2020]
         [HistChanges.mkChangeRow "Odense" (Fin (Qc_of_Z 200)) NaN NaN])
    = Ok t'.
Proof.
  destruct (display_rounding "M2AffordedTotal" 2000 2020
              (HistChanges.mkChangeTable [2000; 2020]
                 [HistChanges.mkChangeRow "Odense" (Fin (Qc_of_Z 200)) NaN NaN]))
    as (Hok & _).
  by apply Hok.
Defined.

(** * More of the code: the change types of the historical-changes page *)

Section counting_facts.
Import HistPage.

Lemma remove_dups_NoDup {A : Type} `{EqDecision A} (l : list A) :
  NoDup l → remove_dups l = l.
Proof.
  induction 1 as [|x l Hx _ IH]; [done|].
  simpl. destruct (decide_rel elem_of x l); [done|]. by rewrite IH.
Qed.

Lemma sum_list_ext {A : Type} (g h : A → nat) (l : list A) :
  (∀ x, x ∈ l → g x = h x) → sum_list (g <$> l) = sum_list (h <$> l).
Proof.
  induction l as [|x l IH]; intros Hgh; [done|].
  rewrite !fmap_cons. simpl. rewrite (Hgh x) by apply list_elem_of_here.
  rewrite IH; [done|]. intros y Hy. by apply Hgh, list_elem_of_further.
Qed.

Lemma fmap_ext_elem {A B : Type} (g h : A → B) (l : list A) :
  (∀ x, x ∈ l → g x = h x) → g <$> l = h <$> l.
Proof.
  induction l as [|x l IH]; intros Hgh; [done|].
  rewrite !fmap_cons, (Hgh x) by apply list_elem_of_here.
  rewrite IH; [done|]. intros y Hy. by apply Hgh, list_elem_of_further.
Qed.

(** Counting a list class by class counts every member once. *)
Lemma class_sizes_sum {A : Type} (f : A → string) (ks : list string)
    (l : list A) :
  NoDup ks → (∀ x, x ∈ l → f x ∈ ks) →
  sum_list ((λ k, length (filter (λ x, f x = k) l)) <$> ks) = length l.
Proof.
  intros Hnd. revert l. induction Hnd as [|k0 ks Hk0 _ IH]; intros l Hin.
  - destruct l as [|x l]; [done|].
    specialize (Hin x (list_elem_of_here _ _)). by apply elem_of_nil in Hin.
  - rewrite fmap_cons. simpl.
    rewrite (sum_list_ext _
               (λ k, length (filter (λ x, f x = k)
                               (filter (λ x, f x ≠ k0) l)))).
    + rewrite IH.
      * rewrite <- length_app.
        by rewrite (filter_app_complement (λ x, f x = k0) l).
      * intros x [Hne Hx]%list_elem_of_filter.
        specialize (Hin x Hx). apply elem_of_cons in Hin as [?|?]; done.
    + intros k Hk. f_equal. rewrite list_filter_filter.
      apply list_filter_iff. intros x. split; [|tauto].
      intros Hx. split; [done|]. intros Heq. apply Hk0. congruence.
Qed.

Lemma drop_duplicates_from_keys {A : Type} (key : A → string)
    (seen : list string) (l : list A) (k : string) :
  k ∈ key <$> drop_duplicates_from key seen l ↔ k ∈ key <$> l ∧ k ∉ seen.
Proof.
  revert seen. induction l as [|x l IH]; intros seen; cbn [drop_duplicates_from].
  - rewrite fmap_nil, elem_of_nil. tauto.
  - case_decide as Hx.
    + rewrite IH, fmap_cons, elem_of_cons. split; [tauto|].
      intros [[->|?] ?]; [done|tauto].
    + rewrite !fmap_cons, !elem_of_cons, IH, elem_of_cons. split.
      * intros [->|(? & ?)]; [tauto|]. split; [tauto|]. tauto.
      * intros [[->|?] ?]; [tauto|].
        destruct (decide (k = key x)); [tauto|]. right. tauto.
Qed.

Lemma drop_duplicates_from_NoDup {A : Type} (key : A → string)
    (seen : list string) (l : list A) :
  NoDup (key <$> drop_duplicates_from key seen l).
Proof.
  revert seen. induction l as [|x l IH]; intros seen; cbn [drop_duplicates_from].
  - constructor.
  - case_decide as Hx; [apply IH|].
    rewrite fmap_cons. constructor; [|apply IH].
    rewrite drop_duplicates_from_keys. intros [_ Hn]. apply Hn, list_elem_of_here.
Qed.

Lemma drop_duplicates_from_sublist {A : Type} (key : A → string)
    (seen : list string) (l : list A) :
  drop_duplicates_from key seen l `sublist_of` l.
Proof.
  revert seen. induction l as [|x l IH]; intros seen; simpl; [done|].
  case_decide; [by apply sublist_cons|by apply sublist_skip].
Qed.

End counting_facts.

Section chart_facts.
Import HistChanges HistPage.

Lemma filter_fmap_comm {A B : Type} (g : A → B) (Q : B → Prop)
    `{!∀ y, Decision (Q y)} (l : list A) :
  filter Q (g <$> l) = g <$> filter (λ x, Q (g x)) l.
Proof.
  induction l as [|x l IH]; [done|].
  rewrite fmap_cons, (filter_cons _ (g x)), (filter_cons _ x).
  destruct (decide (Q (g x))); [rewrite fmap_cons|]; by rewrite IH.
Qed.

Lemma typed_rows_names (txt : string) (t : ChangeTable) :
  (typed_rows txt t).*1
  = filter (λ m, m ≠ "National average") (municipalities t).
Proof.
  unfold typed_rows, municipalities.
  rewrite (filter_fmap_comm _ (λ p, p.1 ≠ "National average")).
  rewrite (filter_fmap_comm _ (λ m, m ≠ "National average")).
  by rewrite <- list_fmap_compose.
Qed.

Lemma typed_rows_class (txt : string) (t : ChangeTable) (ty : string) :
  length (filter (λ q, q.2 = ty) (typed_rows txt t))
  = length (filter (λ c, c_municipality c ≠ "National average"
                         ∧ change_type txt (c_change c) = ty) (t_rows t)).
Proof.
  unfold typed_rows.
  rewrite (filter_fmap_comm _ (λ p, p.1 ≠ "National average")).
  rewrite (filter_fmap_comm _ (λ q, q.2 = ty)), length_fmap.
  rewrite list_filter_filter. f_equal. apply list_filter_iff.
  intros c. simpl. tauto.
Qed.

Lemma nunique_class (txt : string) (t : ChangeTable) (ty : string) :
  NoDup (municipalities t) →
  length (remove_dups (filter (λ q, q.2 = ty) (typed_rows txt t)).*1)
  = length (filter (λ q, q.2 = ty) (typed_rows txt t)).
Proof.
  intros Hnd. rewrite remove_dups_NoDup; [by rewrite length_fmap|].
  eapply sublist_NoDup; [|apply fmap_sublist, sublist_filter].
  rewrite typed_rows_names.
  eapply sublist_NoDup; [exact Hnd|apply sublist_filter].
Qed.

End chart_facts.

(** X12. The doughnut chart counts every municipality but the national
    average exactly once: the change types of its rows are distinct, the
    number shown for a change type is the number of those municipalities
    with that change type and is positive, and the numbers add up to the
    number of those municipalities. *)
Theorem change_type_counts (txt_for_title : string)
    (t : HistChanges.ChangeTable) :
  NoDup (HistChanges.municipalities t) →
  let chart := HistPage.data_for_chart txt_for_title t in
  NoDup chart.*1 ∧
  sum_list chart.*2
    = length (filter (λ m, m ≠ "National average")
                (HistChanges.municipalities t)) ∧
  ∀ ty n, (ty, n) ∈ chart →
    (0 < n)%nat ∧
    n = length (filter (λ c, HistChanges.c_municipality c ≠ "National average"
                             ∧ HistPage.change_type txt_for_title
                                 (HistChanges.c_change c) = ty)
                  (HistChanges.t_rows t)).
Proof.
  intros Hnd chart.
  set (typed := HistPage.typed_rows txt_for_title t).
  set (cnt := λ k : string, length (filter (λ q : string * string, q.2 = k) typed)).
  assert (Hentry : ∀ e, e ∈ chart → e.1 ∈ typed.*2 ∧ e.2 = cnt e.1).
  { intros e He. unfold chart, HistPage.data_for_chart, HistPage.drop_duplicates in He.
    cbv zeta in He. fold typed in He.
    eapply elem_of_sublist in He; [|apply drop_duplicates_from_sublist].
    apply list_elem_of_fmap in He as (p & -> & Hp). simpl. split.
    - apply list_elem_of_fmap. by exists p.
    - by apply nunique_class. }
  assert (Hkeys : ∀ k, k ∈ chart.*1 ↔ k ∈ typed.*2).
  { intros k. unfold chart, HistPage.data_for_chart, HistPage.drop_duplicates.
    cbv zeta. fold typed. rewrite drop_duplicates_from_keys.
    rewrite <- list_fmap_compose. simpl.
    split; [by intros [? _]|]. intros ?. split; [done|apply not_elem_of_nil]. }
  split_and!.
  - apply drop_duplicates_from_NoDup.
  - assert (chart.*2 = cnt <$> chart.*1) as ->.
    { rewrite <- list_fmap_compose. apply fmap_ext_elem.
      intros e He. by apply Hentry. }
    unfold cnt. rewrite (class_sizes_sum snd).
    + rewrite <- (typed_rows_names txt_for_title t). unfold typed.
      by rewrite length_fmap.
    + apply drop_duplicates_from_NoDup.
    + intros p Hp. apply Hkeys, list_elem_of_fmap. by exists p.
  - intros ty n Hin. destruct (Hentry _ Hin) as [Hty Hn]. simpl in *.
    subst n. unfold cnt, typed. rewrite typed_rows_class. split; [|done].
    rewrite <- typed_rows_class. fold typed.
    apply list_elem_of_fmap in Hty as (p & -> & Hp).
    assert (p ∈ filter (λ q : string * string, q.2 = p.2) typed) as Hpin
      by (by apply list_elem_of_filter).
    destruct (filter _ typed); [by apply elem_of_nil in Hpin|simpl; lia].
Qed.

Lemma change_type_counts_witness :
  sum_list
    (HistPage.data_for_chart "actual price"
       (HistChanges.mkChangeTable [2000; 2020]
          [ HistChanges.mkChangeRow "Aarhus" (Fin (Qc_of_Z 100))
              (Fin (Qc_of_Z 150)) (Fin (Qc_of_Z 50));
            HistChanges.mkChangeRow "National average" (Fin (Qc_of_Z 100))
              (Fin (Qc_of_Z 120)) (Fin (Qc_of_Z 20));
            HistChanges.mkChangeRow "Odense" (Fin (Qc_of_Z 200)) NaN NaN;
            HistChanges.mkChangeRow "Skagen" (Fin (Qc_of_Z 0))
              (Fin (Qc_of_Z 80)) PInf ])).*2
  = 3%nat.
Proof.
  destruct (change_type_counts "actual price"
    (HistChanges.mkChangeTable [2000; 2020]
          [ HistChanges.mkChangeRow "Aarhus" (Fin (Qc_of_Z 100))
              (Fin (Qc_of_Z 150)) (Fin (Qc_of_Z 50));
            HistChanges.mkChangeRow "National average" (Fin (Qc_of_Z 100))
              (Fin (Qc_of_Z 120)) (Fin (Qc_of_Z 20));
            HistChanges.mkChangeRow "Odense" (Fin (Qc_of_Z 200)) NaN NaN;
            HistChanges.mkChangeRow "Skagen" (Fin (Qc_of_Z 0))
              (Fin (Qc_of_Z 80)) PInf ])) as (_ & Hsum & _).
  - by_evaluation.
  - exact Hsum.
Defined.

Example data_for_chart_sample :
  HistPage.data_for_chart "actual price"
    (HistChanges.mkChangeTable [2000; 2020]
       [ HistChanges.mkChangeRow "Aarhus" (Fin (Qc_of_Z 100))
           (Fin (Qc_of_Z 150)) (Fin (Qc_of_Z 50));
         HistChanges.mkChangeRow "National average" (Fin (Qc_of_Z 100))
           (Fin (Qc_of_Z 120)) (Fin (Qc_of_Z 20));
         HistChanges.mkChangeRow "Odense" (Fin (Qc_of_Z 200)) NaN NaN;
         HistChanges.mkChangeRow "Skagen" (Fin (Qc_of_Z 0))
           (Fin (Qc_of_Z 80)) PInf ])
  = [("Increase in actual price", 2%nat); ("Unknown change", 1%nat)].
Proof. by vm_compute. Qed.

(** X13. How the chart classes the edge cases of the percent change.  A
    municipality whose base value is zero is counted as an increase or a
    decrease by the sign of its reference value; one whose value is the
    same nonzero number in both years as no change; one with zero in both
    years or with a missing value as an unknown change.  The four labels
    are different whatever the metric text is. *)
Theorem change_type_edges (txt_for_title : string) :
  (∀ q, q ≠ 0%Qc →
        HistPage.change_type txt_for_title
          (HistChanges.pct_change (Fin 0%Qc) (Fin q))
        = if decide (q < 0)%Qc then "Decrease in " +:+ txt_for_title
          else "Increase in " +:+ txt_for_title) ∧
  (∀ q, q ≠ 0%Qc →
        HistPage.change_type txt_for_title
          (HistChanges.pct_change (Fin q) (Fin q))
        = "No change in " +:+ txt_for_title) ∧
  HistPage.change_type txt_for_title
    (HistChanges.pct_change (Fin 0%Qc) (Fin 0%Qc)) = "Unknown change" ∧
  (∀ x, HistPage.change_type txt_for_title (HistChanges.pct_change NaN x)
        = "Unknown change" ∧
        HistPage.change_type txt_for_title (HistChanges.pct_change x NaN)
        = "Unknown change") ∧
  NoDup [ "Decrease in " +:+ txt_for_title; "No change in " +:+ txt_for_title;
          "Increase in " +:+ txt_for_title; "Unknown change" ].
Proof.
  split_and!.
  - intros q Hq. rewrite pct_change_zero_base by done.
    unfold Float.inf_of_sign. by case_decide.
  - intros q Hq. rewrite pct_change_same by done. done.
  - done.
  - intros x. by rewrite pct_change_nan_base, pct_change_nan_ref.
  - repeat constructor; rewrite ?elem_of_cons, ?elem_of_nil; simpl;
      intuition discriminate.
Qed.

Lemma change_type_edges_witness :
  HistPage.change_type "actual price"
    (HistChanges.pct_change (Fin 0%Qc) (Fin (Qc_of_Z 80)))
  = "Increase in actual price".
Proof.
  destruct (change_type_edges "actual price") as (Hzero & _).
  rewrite Hzero; [done|discriminate].
Defined.

(** * More of the code: the rankings of the overview pages *)

Section ranking_facts.
Import Frame Ranking.

Lemma Float_le_total (x y : float) :
  x ≠ NaN → y ≠ NaN → Float.le x y ∨ Float.le y x.
Proof.
  destruct x as [a| | |], y as [b| | |]; simpl; intros Hx Hy; try tauto.
  destruct (total Qcle a b) as [H|H]; tauto.
Qed.

Lemma Float_le_trans (x y z : float) :
  Float.le x y → Float.le y z → Float.le x z.
Proof.
  destruct x as [a| | |], y as [b| | |], z as [c| | |]; simpl; try tauto.
  apply Qcle_trans.
Qed.

#[local] Instance by_key_trans (key : PanelRow → float) :
  Transitive (by_key key).
Proof. intros r1 r2 r3. apply Float_le_trans. Qed.

Lemma insert_Permutation (key : PanelRow → float) (x : PanelRow)
    (l : DataFrame) :
  insert key x l ≡ₚ x :: l.
Proof.
  induction l as [|y l IH]; [done|].
  cbn [insert]. case_decide; [done|].
  rewrite IH. apply Permutation_swap.
Qed.

Lemma insertion_sort_Permutation (key : PanelRow → float) (l : DataFrame) :
  insertion_sort key l ≡ₚ l.
Proof.
  induction l as [|x l IH]; [done|].
  unfold insertion_sort in *. cbn [foldr].
  by rewrite insert_Permutation, IH.
Qed.

Lemma insert_sorted (key : PanelRow → float) (x : PanelRow) (l : DataFrame) :
  key x ≠ NaN → Forall (λ r, key r ≠ NaN) l →
  StronglySorted (by_key key) l →
  StronglySorted (by_key key) (insert key x l).
Proof.
  intros Hx Hl Hs. induction Hs as [|y l Hs IH Hall].
  - repeat constructor.
  - cbn [insert]. inversion_clear Hl as [|?? Hy Hl'].
    case_decide as Hle.
    + constructor; [by constructor|]. constructor; [done|].
      eapply list.Forall_impl; [exact Hall|].
      intros z Hz. by eapply Float_le_trans.
    + constructor; [by apply IH|].
      rewrite insert_Permutation. constructor; [|done].
      destruct (Float_le_total (key x) (key y)); done.
Qed.

Lemma insertion_sort_sorted (key : PanelRow → float) (l : DataFrame) :
  Forall (λ r, key r ≠ NaN) l →
  StronglySorted (by_key key) (insertion_sort key l).
Proof.
  induction 1 as [|x l Hx Hl IH]; [constructor|].
  unfold insertion_sort in *. cbn [foldr].
  apply insert_sorted; [done| |done].
  by rewrite (insertion_sort_Permutation key l).
Qed.

Lemma StronglySorted_reverse {A : Type} (R : relation A) `{!Transitive R}
    (l : list A) :
  StronglySorted R l → StronglySorted (flip R) (reverse l).
Proof.
  intros Hs. apply Sorted_StronglySorted.
  - intros x y z Hxy Hyz. unfold flip in *. by etrans.
  - by apply Sorted_reverse, StronglySorted_Sorted.
Qed.

(** In a sorted list an earlier position holds the smaller row. *)
Lemma StronglySorted_lookup {A : Type} (R : relation A) (l : list A)
    (i j : nat) (a b : A) :
  StronglySorted R l → l !! i = Some a → l !! j = Some b → (i < j)%nat →
  R a b.
Proof.
  intros Hs. revert i j. induction Hs as [|x l Hs IH Hall]; intros i j Hi Hj Hlt.
  - done.
  - destruct j as [|j]; [lia|]. destruct i as [|i]; simpl in *.
    + simplify_eq. by eapply Forall_lookup_1 in Hall.
    + eapply (IH i j); eauto with lia.
Qed.

Lemma sort_values_Permutation (col : string) (ascending : bool)
    (df : DataFrame) :
  sort_values col ascending df ≡ₚ df.
Proof.
  unfold sort_values. cbv zeta.
  assert ((if ascending
           then insertion_sort (λ r, cell r col)
                  (filter (λ r, cell r col ≠ NaN) df)
           else reverse (insertion_sort (λ r, cell r col)
                           (reverse (filter (λ r, cell r col ≠ NaN) df))))
          ≡ₚ filter (λ r, cell r col ≠ NaN) df) as ->.
  { destruct ascending.
    - apply insertion_sort_Permutation.
    - by rewrite reverse_Permutation, insertion_sort_Permutation,
        reverse_Permutation. }
  rewrite Permutation_app_comm.
  rewrite <- (filter_app_complement (λ r, cell r col = NaN) df) at 3.
  done.
Qed.

(** A sorted frame is its rows with a key, in the order asked for,
    followed by its rows with a NaN key. *)
Lemma sort_values_structure (col : string) (ascending : bool)
    (df : DataFrame) :
  ∃ numbered nans,
    sort_values col ascending df = numbered ++ nans ∧
    Forall (λ r, cell r col ≠ NaN) numbered ∧
    Forall (λ r, cell r col = NaN) nans ∧
    StronglySorted
      (λ r1 r2, in_order ascending (cell r1 col) (cell r2 col))
      numbered.
Proof.
  unfold sort_values. cbv zeta. eexists _, _. split; [done|].
  assert (Hnn : Forall (λ r, cell r col ≠ NaN)
                  (filter (λ r, cell r col ≠ NaN) df)).
  { apply list.Forall_forall. by intros r [? _]%list_elem_of_filter. }
  split_and!.
  - destruct ascending.
    + by rewrite (insertion_sort_Permutation (λ r, cell r col)).
    + by rewrite reverse_Permutation,
        (insertion_sort_Permutation (λ r, cell r col)), reverse_Permutation.
  - apply list.Forall_forall. by intros r [? _]%list_elem_of_filter.
  - destruct ascending; simpl.
    + by apply (insertion_sort_sorted (λ r, cell r col)).
    + apply (StronglySorted_reverse (by_key (λ r, cell r col))).
      apply (insertion_sort_sorted (λ r, cell r col)).
      by rewrite reverse_Permutation.
Qed.


Lemma elem_of_pool (data_to_display : DataFrame) (year_to_show : Z)
    (r : PanelRow) :
  r ∈ Overview.pool data_to_display year_to_show ↔
  r ∈ data_to_display ∧ Year r = year_to_show
  ∧ Municipality r ≠ "National average".
Proof. unfold Overview.pool. rewrite !list_elem_of_filter. tauto. Qed.

End ranking_facts.

(** The block of lines 1107-1115 is the ranking by price, latest first,
    charted by the metric in increasing order. *)
Lemma most_expensive_top_n (data_to_display : DataFrame) (year_to_show : Z)
    (n_mncp_to_show : nat) (metric_for_use : string) :
  Overview.most_expensive data_to_display year_to_show n_mncp_to_show
    metric_for_use
  = Ranking.top_n "AvgSalesPrice" false metric_for_use true
      data_to_display year_to_show n_mncp_to_show.
Proof. reflexivity. Qed.

(** ** The order of tied municipalities *)

Section sort_contract_facts.
Import Frame Ranking.






End sort_contract_facts.




(** X14. A ranking charts [min(n, size of the pool)] rows: asking for more
    municipalities than the year has gives them all and raises nothing. *)
Theorem top_n_length (rank_col : string) (rank_ascending : bool)
    (chart_col : string) (chart_ascending : bool)
    (data_to_display : DataFrame) (year_to_show : Z) (n_mncp_to_show : nat) :
  length (Ranking.top_n rank_col rank_ascending chart_col chart_ascending
            data_to_display year_to_show n_mncp_to_show)
  = (n_mncp_to_show `min`
       length (Overview.pool data_to_display year_to_show))%nat ∧
  length (Overview.most_expensive data_to_display year_to_show
            n_mncp_to_show chart_col)
  = (n_mncp_to_show `min`
       length (Overview.pool data_to_display year_to_show))%nat.
Proof.
  assert (∀ c1 a1 c2 a2,
            length (Ranking.top_n c1 a1 c2 a2 data_to_display year_to_show
                      n_mncp_to_show)
            = (n_mncp_to_show `min`
                 length (Overview.pool data_to_display year_to_show))%nat) as H.
  { intros. unfold Ranking.top_n. cbv zeta.
    rewrite sort_values_Permutation, length_take.
    by rewrite sort_values_Permutation. }
  split; [apply H|]. rewrite most_expensive_top_n. apply H.
Qed.

(** X15. A ranking charts rows of the pool, none more often than the pool
    has it: every charted row is a row of the frame for the year shown, and
    the national average is never charted. *)
Theorem top_n_from_pool (rank_col : string) (rank_ascending : bool)
    (chart_col : string) (chart_ascending : bool)
    (data_to_display : DataFrame) (year_to_show : Z) (n_mncp_to_show : nat) :
  let top := Ranking.top_n rank_col rank_ascending chart_col chart_ascending
               data_to_display year_to_show n_mncp_to_show in
  top ⊆+ Overview.pool data_to_display year_to_show ∧
  ∀ r, r ∈ top →
       r ∈ data_to_display ∧ Year r = year_to_show
       ∧ Municipality r ≠ "National average".
Proof.
  intros top.
  assert (Hsub : top ⊆+ Overview.pool data_to_display year_to_show).
  { unfold top, Ranking.top_n. cbv zeta.
    rewrite sort_values_Permutation.
    rewrite <- (sort_values_Permutation rank_col rank_ascending
                  (Overview.pool data_to_display year_to_show)) at 2.
    apply submseteq_take. }
  split; [done|]. intros r Hr. apply elem_of_pool.
  by eapply elem_of_submseteq.
Qed.

(** X16. A ranking charts the extreme rows of the pool.  The pool is the
    charted rows and the rest; a row of the rest that has a ranking value
    comes after every charted row in the ranking order, and every charted
    row then has a ranking value too: a row without a value is charted
    only when no row with a value is left out. *)
Theorem top_n_dominates (rank_col : string) (rank_ascending : bool)
    (chart_col : string) (chart_ascending : bool)
    (data_to_display : DataFrame) (year_to_show : Z) (n_mncp_to_show : nat) :
  let top := Ranking.top_n rank_col rank_ascending chart_col chart_ascending
               data_to_display year_to_show n_mncp_to_show in
  ∃ rest,
    Overview.pool data_to_display year_to_show ≡ₚ top ++ rest ∧
    ∀ r r', r ∈ top → r' ∈ rest → cell r' rank_col ≠ NaN →
            cell r rank_col ≠ NaN ∧
            Ranking.in_order rank_ascending (cell r rank_col)
              (cell r' rank_col).
Proof.
  intros top. unfold top, Ranking.top_n. cbv zeta.
  set (pool := Overview.pool data_to_display year_to_show).
  set (s := Frame.sort_values rank_col rank_ascending pool).
  exists (drop n_mncp_to_show s). split.
  - rewrite sort_values_Permutation, take_drop. unfold s.
    by rewrite sort_values_Permutation.
  - intros r r' Hr Hr' Hkey'.
    rewrite sort_values_Permutation in Hr.
    apply elem_of_take in Hr as (i & Hi & Hin).
    apply list_elem_of_lookup_1 in Hr' as [j Hj]. rewrite lookup_drop in Hj.
    destruct (sort_values_structure rank_col rank_ascending pool)
      as (numbered & nans & Hs & Hnum & Hnan & Hsorted).
    fold s in Hs. rewrite Hs in Hi, Hj.
    assert (Hj' : numbered !! (n_mncp_to_show + j)%nat = Some r').
    { destruct (decide (n_mncp_to_show + j < length numbered)%nat).
      - by rewrite lookup_app_l in Hj.
      - rewrite lookup_app_r in Hj by lia.
        eapply Forall_lookup_1 in Hnan; [|exact Hj]. done. }
    assert (Hi' : numbered !! i = Some r).
    { apply lookup_lt_Some in Hj'. by rewrite lookup_app_l in Hi by lia. }
    split.
    + by eapply Forall_lookup_1 in Hnum.
    + apply (StronglySorted_lookup
               (λ r1 r2, Ranking.in_order rank_ascending (cell r1 rank_col)
                           (cell r2 rank_col))
               numbered i (n_mncp_to_show + j) r r'); [done|done|done|lia].
Qed.

(** X17. The bars of a ranking come in the order of the charted column:
    first the rows with a value, in increasing or decreasing order as the
    block asks, then the rows without one. *)
Theorem top_n_chart_order (rank_col : string) (rank_ascending : bool)
    (chart_col : string) (chart_ascending : bool)
    (data_to_display : DataFrame) (year_to_show : Z) (n_mncp_to_show : nat) :
  ∃ numbered nans,
    Ranking.top_n rank_col rank_ascending chart_col chart_ascending
      data_to_display year_to_show n_mncp_to_show = numbered ++ nans ∧
    Forall (λ r, cell r chart_col ≠ NaN) numbered ∧
    Forall (λ r, cell r chart_col = NaN) nans ∧
    StronglySorted
      (λ r1 r2, Ranking.in_order chart_ascending (cell r1 chart_col)
                  (cell r2 chart_col))
      numbered.
Proof. unfold Ranking.top_n. cbv zeta. apply sort_values_structure. Qed.

Example top_n_sample :
  Municipality
    <$> Ranking.cheapest
          (Overview.data_to_display Sample.overview
             Sample.incl_estimates "AvgSalesPrice") 2020 3 "AvgSalesPrice"
  = ["Esbjerg"; "Randers"; "Horsens"] ∧
  Municipality
    <$> Overview.most_expensive
          (Overview.data_to_display Sample.overview
             Sample.incl_estimates "AvgSalesPrice") 2020 2 "AvgSalesPrice"
  = ["Odense"; "Skagen"] ∧
  length (Overview.most_expensive
            (Overview.data_to_display Sample.overview
               Sample.incl_estimates "AvgSalesPrice") 2020 20 "AvgSalesPrice")
  = 11%nat.
Proof. split_and!; by_evaluation. Qed.

(** * More of the code: the chart of the by-municipality price page *)

Section price_page_facts.
Import PricePage.

Lemma insert_year_Permutation (x : PanelRow) (l : DataFrame) :
  insert_year x l ≡ₚ x :: l.
Proof.
  induction l as [|y l IH]; [done|].
  cbn [insert_year]. case_decide; [done|].
  rewrite IH. apply Permutation_swap.
Qed.

Lemma sort_year_Permutation (l : DataFrame) :
  foldr insert_year [] l ≡ₚ l.
Proof.
  induction l as [|x l IH]; [done|].
  cbn [foldr]. by rewrite insert_year_Permutation, IH.
Qed.

Lemma insert_year_sorted (x : PanelRow) (l : DataFrame) :
  StronglySorted (λ r1 r2, Year r1 ≤ Year r2) l →
  StronglySorted (λ r1 r2, Year r1 ≤ Year r2) (insert_year x l).
Proof.
  intros Hs. induction Hs as [|y l Hs IH Hall].
  - repeat constructor.
  - cbn [insert_year]. case_decide as Hle.
    + constructor; [by constructor|]. constructor; [done|].
      eapply list.Forall_impl; [exact Hall|]. intros z Hz. simpl in *. lia.
    + constructor; [done|].
      rewrite insert_year_Permutation. constructor; [lia|done].
Qed.

Lemma sort_year_sorted (l : DataFrame) :
  StronglySorted (λ r1 r2, Year r1 ≤ Year r2) (foldr insert_year [] l).
Proof.
  induction l as [|x l IH]; [constructor|].
  cbn [foldr]. by apply insert_year_sorted.
Qed.

Lemma sort_year_descending_Permutation (d : DataFrame) :
  sort_year_descending d ≡ₚ d.
Proof.
  unfold sort_year_descending.
  by rewrite reverse_Permutation, sort_year_Permutation, reverse_Permutation.
Qed.

Lemma elem_of_unique_mncp (d : DataFrame) (a : string) :
  a ∈ unique_mncp d ↔ ∃ r, r ∈ d ∧ Municipality r = a.
Proof.
  unfold unique_mncp, unique.
  rewrite elem_of_reverse, elem_of_remove_dups, elem_of_reverse.
  rewrite sort_year_descending_Permutation, list_elem_of_fmap.
  split; [intros (r & -> & ?); eauto|intros (r & ? & <-); eauto].
Qed.

Lemma NoDup_unique_mncp (d : DataFrame) : NoDup (unique_mncp d).
Proof.
  unfold unique_mncp, unique. rewrite reverse_Permutation.
  apply NoDup_remove_dups.
Qed.

Lemma NoDup_all_equal {A : Type} (l : list A) (a : A) :
  NoDup l → l ≠ [] → (∀ x, x ∈ l → x = a) → l = [a].
Proof.
  intros Hnd Hne Hall. destruct l as [|x l]; [done|].
  assert (x = a) as -> by (apply Hall, list_elem_of_here).
  destruct l as [|z l]; [done|].
  assert (z = a) as ->.
  { apply Hall, list_elem_of_further, list_elem_of_here. }
  inversion_clear Hnd as [|?? Hy _]. exfalso. apply Hy, list_elem_of_here.
Qed.

Lemma year_le_trans : Transitive (λ r1 r2 : PanelRow, Year r1 ≤ Year r2).
Proof. intros r1 r2 r3. simpl. lia. Qed.

End price_page_facts.

(** X18. The rows of the by-municipality view are charted latest year
    first: sorting by year keeps the rows and puts them in decreasing order
    of year.  Nothing is said of the order of the rows of one year, which
    pandas' sort does not fix. *)
Theorem view_latest_year_first (d : DataFrame) :
  PricePage.sort_year_descending d ≡ₚ d ∧
  StronglySorted (λ r1 r2, Year r2 ≤ Year r1)
    (PricePage.sort_year_descending d).
Proof.
  split.
  - apply sort_year_descending_Permutation.
  - unfold PricePage.sort_year_descending.
    apply (@StronglySorted_reverse _ _ year_le_trans).
    apply sort_year_sorted.
Qed.

(** X19. The chart title of the by-municipality price page.  Computing it
    raises [IndexError] exactly when the view has no row; a view whose rows
    are all of one municipality is titled with that municipality, and a
    view with two different municipalities gets the by-municipality
    title. *)
Theorem chart_title_outcome (metric_for_use : string) (d : DataFrame) :
  let txt := PricePage.metric_for_use_txt metric_for_use in
  (PricePage.chart_title metric_for_use d = None ↔ d = []) ∧
  (∀ a, d ≠ [] → (∀ r, r ∈ d → Municipality r = a) →
        PricePage.chart_title metric_for_use d
        = Some (txt +:+ " in " +:+ a +:+ " over time")) ∧
  (∀ r1 r2, r1 ∈ d → r2 ∈ d → Municipality r1 ≠ Municipality r2 →
            PricePage.chart_title metric_for_use d
            = Some (txt +:+ " by municipality and year")).
Proof.
  intros txt. unfold PricePage.chart_title. cbv zeta. fold txt.
  assert (Hone : ∀ a, d ≠ [] → (∀ r, r ∈ d → Municipality r = a) →
                      PricePage.unique_mncp d = [a]).
  { intros a Hne Hall. apply NoDup_all_equal; [apply NoDup_unique_mncp| |].
    - destruct d as [|r d']; [done|]. intros Hnil.
      assert (Municipality r ∈ PricePage.unique_mncp (r :: d')) as Hin.
      { apply elem_of_unique_mncp. exists r. split; [apply list_elem_of_here|done]. }
      rewrite Hnil in Hin. by apply elem_of_nil in Hin.
    - intros x (r & Hr & <-)%elem_of_unique_mncp. by apply Hall. }
  split_and!.
  - split.
    + case_decide as Hlen; [done|].
      destruct (PricePage.unique_mncp d) as [|a u] eqn:Hu; [|done].
      intros _. destruct d as [|r d']; [done|]. exfalso.
      assert (Municipality r ∈ PricePage.unique_mncp (r :: d')) as Hin.
      { apply elem_of_unique_mncp. exists r. split; [apply list_elem_of_here|done]. }
      rewrite Hu in Hin. by apply elem_of_nil in Hin.
    + intros ->. done.
  - intros a Hne Hall. rewrite (Hone a Hne Hall). simpl. done.
  - intros r1 r2 Hr1 Hr2 Hdiff. rewrite decide_True; [done|].
    assert (H1 : Municipality r1 ∈ PricePage.unique_mncp d)
      by (apply elem_of_unique_mncp; eauto).
    assert (H2 : Municipality r2 ∈ PricePage.unique_mncp d)
      by (apply elem_of_unique_mncp; eauto).
    destruct (PricePage.unique_mncp d) as [|a [|b u]]; simpl; [| |lia].
    + by apply elem_of_nil in H1.
    + apply list_elem_of_singleton in H1, H2. congruence.
Qed.

Lemma chart_title_outcome_witness :
  PricePage.chart_title "AvgSalesPrice"
    (View.data_to_display (Recency.annual_recency Sample.ten_years)
       Sample.ten_years 3 ["Odense"] Sample.incl_estimates)
  = Some "Average price per m² in Odense over time".
Proof.
  destruct (chart_title_outcome "AvgSalesPrice"
              (View.data_to_display (Recency.annual_recency Sample.ten_years)
                 Sample.ten_years 3 ["Odense"] Sample.incl_estimates))
    as (_ & Hone & _).
  rewrite (Hone "Odense"); [done|by vm_compute|].
  intros r Hr. apply list_elem_of_filter in Hr as [_ Hr].
  apply list_elem_of_filter in Hr as [Hm _].
  by apply list_elem_of_singleton in Hm.
Defined.

Example chart_title_empty_view :
  PricePage.chart_title "AvgSalesPrice"
    (View.data_to_display (Recency.annual_recency Sample.ten_years)
       Sample.ten_years 3 (PricePage.filter_by_location [])
       Sample.incl_estimates)
  = None.
Proof. by vm_compute. Qed.

(** * More of the code: the years offered by the historical-changes page *)

(** X20. On the historical-changes page every pair of years the two select
    boxes offer can be compared.  When the price types of the data are the
    three of the taxonomy and no municipality has two selected rows of one
    year, then for either combination the page offers and any two offered
    years the pivot and percent change returns a table: it raises neither
    [KeyError] nor [ValueError]. *)
Theorem offered_years_can_be_compared (df : DataFrame)
    (selected_combination : string) (price_types : list string)
    (base_year ref_year : Z) (metric_for_use : string) :
  (∀ r, r ∈ df → PriceType r ∈ Sidebar.taxonomy) →
  selected_combination ∈ HistPage.local_price_combinations →
  Sidebar.filter_price_type_new HistPage.local_price_combinations
    "Historical data incl. estimates" selected_combination = Ok price_types →
  base_year ∈ HistPage.offered_years df price_types →
  ref_year ∈ HistPage.offered_years df price_types →
  NoDup (HistChanges.key
           <$> HistChanges.selected df price_types base_year ref_year) →
  ∃ t, HistChanges.pivot_and_change df price_types base_year ref_year
         metric_for_use = Ok t.
Proof.
  intros Htax Hsel Hres Hb Hr Hnd.
  assert (Hrow : ∀ y, y ∈ HistPage.offered_years df price_types →
                      ∃ r, r ∈ df ∧ PriceType r ∈ price_types ∧ Year r = y).
  { intros y Hy. unfold HistPage.offered_years in Hy.
    apply elem_of_all_years in Hy as [Hy|Hy].
    - apply elem_of_unique_years, elem_of_historical_years in Hy
        as (r & Hrin & Hnp & <-).
      exists r. split; [done|]. split; [|done].
      specialize (Htax r Hrin). unfold Sidebar.taxonomy in Htax.
      apply list_elem_of_In in Htax. simpl in Htax.
      apply list_elem_of_In in Hsel. simpl in Hsel.
      destruct Hsel as [<-|[<-|[]]]; vm_compute in Hres;
        injection Hres as <-; apply list_elem_of_In; simpl;
        destruct Htax as [<-|[<-|[Hp|[]]]]; auto; by symmetry in Hp.
    - unfold Widgets.offered_future_years in Hy.
      case_decide as Hpred; [|by apply elem_of_nil in Hy].
      unfold Recency.future_years in Hy.
      apply elem_of_unique, list_elem_of_fmap in Hy as (r & -> & Hrin).
      apply list_elem_of_filter in Hrin as [Hp Hrin].
      exists r. split; [done|]. split; [|done]. by rewrite Hp. }
  destruct (Hrow _ Hb) as (rb & ? & ? & ?).
  destruct (Hrow _ Hr) as (rr & ? & ? & ?).
  apply pivot_and_change_Ok; [done| |].
  - exists rb. split; [|done]. apply elem_of_selected. auto.
  - exists rr. split; [|done]. apply elem_of_selected. auto.
Qed.

Lemma offered_years_can_be_compared_witness :
  ∃ t, HistChanges.pivot_and_change Sample.ten_years
         ["Actual price"; "Estimated price"; "Predicted price"]
         2012 2021 "AvgSalesPrice" = Ok t.
Proof.
  apply (offered_years_can_be_compared Sample.ten_years
           "Historical data and predictions").
  - intros r Hr. apply list_elem_of_In in Hr. simpl in Hr.
    repeat (destruct Hr as [<-|Hr]; [by_evaluation|]). done.
  - by_evaluation.
  - by vm_compute.
  - by_evaluation.
  - by_evaluation.
  - by_evaluation.
Defined.

(** * More of the code: rounding twice *)

Section round_twice.

Lemma pow10_nonzero (decimals : nat) : Float.pow10 decimals ≠ 0%Qc.
Proof.
  unfold Float.pow10. rewrite <- Z2Qc_inj_0. intros H%Z2Qc_inj.
  assert (0 < 10 ^ Z.of_nat decimals) by (apply Z.pow_pos_nonneg; lia). lia.
Qed.

Lemma rint_integer (n : Z) : Float.rint (Qc_of_Z n) = n.
Proof.
  unfold Float.rint. cbv zeta.
  assert (Qfloor (Qc_of_Z n) = n) as -> by apply Qfloor_Z.
  assert ((Qc_of_Z n - Qc_of_Z n)%Qc = 0%Qc) as -> by ring.
  by rewrite decide_True.
Qed.

Lemma Float_round_idempotent (x : float) (decimals : nat) :
  Float.round (Float.round x decimals) decimals = Float.round x decimals.
Proof.
  destruct x as [q| | |]; [|done..]. unfold Float.round. f_equal.
  set (n := Float.rint (q * Float.pow10 decimals)).
  assert ((Qc_of_Z n / Float.pow10 decimals * Float.pow10 decimals)%Qc
          = Qc_of_Z n) as ->.
  { field. apply pow10_nonzero. }
  by rewrite rint_integer.
Qed.

Lemma page_hist_changes_idempotent (metric_for_use : string) (x y : float) :
  Rounding.page_hist_changes metric_for_use x = Ok y →
  Rounding.page_hist_changes metric_for_use y = Ok y.
Proof.
  unfold Rounding.page_hist_changes. case_decide.
  - destruct x as [q| | |]; [|done..].
    rewrite astype_int_round_0. intros Hy.
    assert (y = Float.round (Fin q) 0) as -> by congruence.
    rewrite Float_round_idempotent. apply astype_int_round_0.
  - intros Hy. assert (y = Float.round x 1) as -> by congruence.
    by rewrite Float_round_idempotent.
Qed.

End round_twice.

(** X21. Rounding a cell twice to the same number of decimals gives what
    rounding it once gives.  So when the base year and the reference year
    are the same, the one year column, which the loop of lines 914-920
    rounds twice, ends up as after a single rounding. *)
Theorem rounding_twice (metric_for_use : string) (year : Z)
    (rows rows1 : list HistChanges.ChangeRow) (x : float) (decimals : nat) :
  Float.round (Float.round x decimals) decimals = Float.round x decimals ∧
  (HistPage.round_year_column metric_for_use year year year rows = Ok rows1 →
   HistPage.round_year_column metric_for_use year year year rows1 = Ok rows1).
Proof.
  split; [apply Float_round_idempotent|].
  unfold HistPage.round_year_column. intros H%mapM_result_Ok.
  apply mapM_result_Ok.
  induction H as [|c c1 l l1 Hc _ IH]; [constructor|].
  constructor; [|exact IH].
  apply round_row_Ok in Hc as (Hm & Hch & _ & _ & Hb & Hr).
  specialize (Hb eq_refl). specialize (Hr eq_refl).
  apply page_hist_changes_idempotent in Hb, Hr.
  unfold HistPage.round_row, mbind, result_bind.
  rewrite !decide_True by done. rewrite Hb, Hr.
  by destruct c1.
Qed.

Lemma rounding_twice_witness :
  HistPage.round_year_column "M2AffordedTotal" 2000 2000 2000
    [HistChanges.mkChangeRow "Odense" (Fin (Q2Qc (13 # 10)))
       (Fin (Q2Qc (13 # 10))) (Fin 0%Qc)]
  = Ok [HistChanges.mkChangeRow "Odense" (Fin (Q2Qc (13 # 10)))
          (Fin (Q2Qc (13 # 10))) (Fin 0%Qc)].
Proof.
  apply (rounding_twice "M2AffordedTotal" 2000
           [HistChanges.mkChangeRow "Odense" (Fin (Q2Qc (126 # 100)))
              (Fin (Q2Qc (126 # 100))) (Fin 0%Qc)]
           _ NaN 0).
  apply mapM_result_Ok. constructor; [|constructor].
  unfold HistPage.round_row, mbind, result_bind. simpl.
  unfold Rounding.page_hist_changes. simpl.
  do 2 f_equal; f_equal; apply Qc_is_canon; reflexivity.
Defined.
